(** * dbgap_study_information: study identifiers and the biocaddie mapping

    A shallow embedding of [src/dbgap/dbgap_study_information.py]:

    - [StudyIdentifier.__init__] and the [identifiers] property, and
    - [biocaddie_json], the conversion of a raw dbGaP study document into a
      biocaddie [Study] entry.

    The source is Python, so the embedding keeps what Python has and the
    properties depend on: values are dynamically typed, objects live in a
    store and are passed by reference, an instance's attributes are the
    entries of its [__dict__], and a failing operation raises. *)

From Stdlib Require Import ZArith String Ascii List Lia.
From stdpp Require Import base list strings.

(** ** Python values, objects and the store *)

(** A location of the store. *)
Abbreviation loc := nat (only parsing).

(** The values the two functions handle.  [VRef] is a reference to a mutable
    object of the store (a list, a dict or a class instance).  JSON floats are
    left out: at every operation below they behave as [VInt] does. *)
Inductive value :=
| VNone
| VBool (b : bool)
| VInt (z : Z)
| VStr (s : string)
| VRef (l : loc).

(** Objects of the store.  An instance carries its class name and the location
    of its [__dict__]; the dictionaries met here have string keys and keep
    insertion order, as Python's do. *)
Inductive obj :=
| OList (items : list value)
| ODict (items : list (string * value))
| OInstance (cls : string) (dict : loc).

(** The store: the object at location [l] is the [l]-th one; allocation
    appends. *)
Abbreviation heap := (list obj) (only parsing).

(** Exceptions.  [Unmodelled] is no Python exception: it marks a state no Python
    run reaches (a dangling reference) or an operation outside the modelled
    fragment (say [repr] of a container). *)
Inductive exn :=
| AttributeError (name : string)
| TypeError
| ValueError
| Unmodelled.

Inductive res (A : Type) :=
| Ok (a : A)
| Raise (e : exn).
Arguments Ok {A} a.
Arguments Raise {A} e.

(** A computation reads and updates the store and returns or raises; the store
    survives a raise, as it does in Python. *)
Definition M (A : Type) := heap -> res A * heap.

Definition ret {A} (a : A) : M A := fun h => (Ok a, h).

Definition bind {A B} (m : M A) (k : A -> M B) : M B :=
  fun h => match m h with
           | (Ok a, h1) => k a h1
           | (Raise e, h1) => (Raise e, h1)
           end.

Definition lift {A} (r : res A) : M A := fun h => (r, h).

Notation "'let*' x ':=' m 'in' k" := (bind m (fun x => k))
  (at level 10, x name, m at level 100, k at level 200).
Notation "m ';;' k" := (bind m (fun _ => k))
  (at level 100, k at level 200, right associativity).

Definition alloc (o : obj) : M loc := fun h => (Ok (length h), h ++ [o]).

(** *** Dictionaries *)

Fixpoint dict_get (items : list (string * value)) (k : string) : option value :=
  match items with
  | [] => None
  | (k', v) :: rest => if String.eqb k' k then Some v else dict_get rest k
  end.

(** [d[k] = v] on the entries: an existing key keeps its place. *)
Fixpoint dict_set (items : list (string * value)) (k : string) (v : value)
  : list (string * value) :=
  match items with
  | [] => [(k, v)]
  | (k', v') :: rest =>
      if String.eqb k' k then (k', v) :: rest else (k', v') :: dict_set rest k v
  end.

Definition keys (items : list (string * value)) : list string := map fst items.

(** [d[k] = v] on the dict object at [d]. *)
Definition dict_setitem (d : loc) (k : string) (v : value) : M unit :=
  fun h => match h !! d with
           | Some (ODict items) => (Ok tt, <[d := ODict (dict_set items k v)]> h)
           | Some _ => (Raise TypeError, h)
           | None => (Raise Unmodelled, h)
           end.

(** *** Attributes *)

(** The [__dict__] of an instance, read from the store. *)
Definition instance_dict (h : heap) (v : value) : option (loc * list (string * value)) :=
  match v with
  | VRef l =>
      match h !! l with
      | Some (OInstance _ d) =>
          match h !! d with
          | Some (ODict items) => Some (d, items)
          | _ => None
          end
      | _ => None
      end
  | _ => None
  end.

(** [v.name] for a data attribute.  The names read by the source
    ([GaPExchange], [accession], [studyid], ...) are attributes of no built-in
    type and of neither class, so the lookup is in the instance's [__dict__]
    alone and everything that is not an instance raises [AttributeError].
    Names a class defines itself (the [identifiers] property, [__dict__],
    [__class__]) are read from the class in Python and are outside this
    fragment: the facts below use [lookup_attr] for data attributes only. *)
Definition lookup_attr (h : heap) (v : value) (name : string) : res value :=
  match v with
  | VRef l =>
      match h !! l with
      | Some (OInstance _ d) =>
          match h !! d with
          | Some (ODict items) =>
              match dict_get items name with
              | Some x => Ok x
              | None => Raise (AttributeError name)
              end
          | _ => Raise Unmodelled
          end
      | Some _ => Raise (AttributeError name)
      | None => Raise Unmodelled
      end
  | _ => Raise (AttributeError name)
  end.

Definition getattr (v : value) (name : string) : M value :=
  fun h => (lookup_attr h v name, h).

(** [v.name = x]: an entry of the instance's [__dict__]. *)
Definition setattr (v : value) (name : string) (x : value) : M unit :=
  fun h => match v with
           | VRef l =>
               match h !! l with
               | Some (OInstance _ d) => dict_setitem d name x h
               | Some _ => (Raise (AttributeError name), h)
               | None => (Raise Unmodelled, h)
               end
           | _ => (Raise (AttributeError name), h)
           end.

(** A new instance of class [cls] with an empty [__dict__]. *)
Definition new_instance (cls : string) : M value :=
  let* d := alloc (ODict []) in
  let* o := alloc (OInstance cls d) in
  ret (VRef o).

Definition new_dict (items : list (string * value)) : M value :=
  let* d := alloc (ODict items) in ret (VRef d).

Definition new_list (items : list value) : M value :=
  let* l := alloc (OList items) in ret (VRef l).

(** A chain of attribute reads, [v.a.b.c]. *)
Fixpoint path_get (h : heap) (v : value) (path : list string) : res value :=
  match path with
  | [] => Ok v
  | name :: rest =>
      match lookup_attr h v name with
      | Ok x => path_get h x rest
      | Raise e => Raise e
      end
  end.

(** ** Strings: [str] of an int and the [%] operator *)

Definition digit_char (d : Z) : ascii := ascii_of_nat (48 + Z.to_nat d).

(** The decimal digits of a non-negative integer, most significant first. *)
Fixpoint decimal_go (fuel : nat) (n : Z) : string :=
  match fuel with
  | O => ""
  | S f =>
      if (n <? 10)%Z then String (digit_char n) ""
      else decimal_go f (n / 10)%Z +:+ String (digit_char (n mod 10)%Z) ""
  end.

Definition decimal (n : Z) : string := decimal_go (S (Z.to_nat (Z.log2 n))) n.

(** [str(n)]. *)
Definition str_int (n : Z) : string :=
  if (n <? 0)%Z then "-" +:+ decimal (- n) else decimal n.

Fixpoint pad (c : ascii) (n : nat) : string :=
  match n with
  | O => ""
  | S k => String c (pad c k)
  end.

(** A [%d] conversion with its [0] flag and minimum width: the sign comes
    first, zeros fill between sign and digits, and the field only ever grows. *)
Definition format_int (zero : bool) (width : nat) (n : Z) : string :=
  let sign := if (n <? 0)%Z then "-" else "" in
  let digits := decimal (Z.abs n) in
  let fill := width - (String.length sign + String.length digits) in
  if zero then sign +:+ pad "0" fill +:+ digits
  else pad " " fill +:+ sign +:+ digits.

(** A [%s] conversion: blanks fill on the left whatever the flag. *)
Definition format_str (width : nat) (s : string) : string :=
  pad " " (width - String.length s) +:+ s.

Definition int_of (v : value) : option Z :=
  match v with
  | VInt n => Some n
  | VBool b => Some (if b then 1 else 0)%Z
  | _ => None
  end.

(** [str(v)] for the values that need no store. *)
Definition str_of (v : value) : res string :=
  match v with
  | VStr s => Ok s
  | VInt n => Ok (str_int n)
  | VBool b => Ok (if b then "True" else "False")
  | VNone => Ok "None"
  | VRef _ => Raise Unmodelled
  end.

Definition is_digit (c : ascii) : bool :=
  (48 <=? nat_of_ascii c)%nat && (nat_of_ascii c <=? 57)%nat.

Definition digit_val (c : ascii) : nat := nat_of_ascii c - 48.

(** Where the scan of a format string stands: in literal text, or inside a
    conversion after its [%], with the flag and width read so far. *)
Inductive conv_state :=
| Literal
| InSpec (zero : bool) (width : option nat).

Definition prepend (s : string) (r : res string) : res string :=
  match r with
  | Ok t => Ok (s +:+ t)
  | Raise e => Raise e
  end.

(** [fmt % args], left to right, for the conversions [%d], [%s] and [%%] with
    an optional [0] flag and width; the other flags and conversions of Python
    are outside the fragment. *)
Fixpoint format_go (st : conv_state) (fmt : string) (args : list value) : res string :=
  match fmt with
  | EmptyString =>
      match st with
      | Literal => match args with [] => Ok "" | _ => Raise TypeError end
      | InSpec _ _ => Raise ValueError
      end
  | String c rest =>
      match st with
      | Literal =>
          if Ascii.eqb c "%" then format_go (InSpec false None) rest args
          else prepend (String c "") (format_go Literal rest args)
      | InSpec zero width =>
          if is_digit c then
            match width with
            | None =>
                if Ascii.eqb c "0" then format_go (InSpec true None) rest args
                else format_go (InSpec zero (Some (digit_val c))) rest args
            | Some w => format_go (InSpec zero (Some (10 * w + digit_val c))) rest args
            end
          else if Ascii.eqb c "d" then
            match args with
            | a :: args' =>
                match int_of a with
                | Some n =>
                    prepend (format_int zero (default 0 width) n)
                      (format_go Literal rest args')
                | None => Raise TypeError
                end
            | [] => Raise TypeError
            end
          else if Ascii.eqb c "s" then
            match args with
            | a :: args' =>
                match str_of a with
                | Ok s =>
                    prepend (format_str (default 0 width) s)
                      (format_go Literal rest args')
                | Raise e => Raise e
                end
            | [] => Raise TypeError
            end
          else if Ascii.eqb c "%" then
            prepend "%" (format_go Literal rest args)
          else Raise Unmodelled
      end
  end.

Definition pyformat (fmt : string) (args : list value) : M value :=
  lift (match format_go Literal fmt args with
        | Ok s => Ok (VStr s)
        | Raise e => Raise e
        end).

(** [a + b] where the source concatenates strings. *)
Definition str_add (a b : value) : M value :=
  lift (match a, b with
        | VStr s, VStr t => Ok (VStr (s +:+ t))
        | _, _ => Raise TypeError
        end).

(** ** StudyIdentifier *)

Module StudyIdentifier.

(** [__init__(self, id_, v, p)]. *)
Definition __init__ (self : value) (id_ v p : Z) : M unit :=
  let* s := pyformat "phs%06d" [VInt id_] in
  setattr self "studyid" s;;
  let* studyid := getattr self "studyid" in
  let* s := pyformat "%s.v%d" [studyid; VInt v] in
  setattr self "versionedid" s;;
  let* versionedid := getattr self "versionedid" in
  let* s := pyformat "%s.p%d" [versionedid; VInt p] in
  setattr self "fullid" s.

(** [StudyIdentifier(id_, v, p)]: a new instance, initialised. *)
Definition new (id_ v p : Z) : M value :=
  let* self := new_instance "StudyIdentifier" in
  __init__ self id_ v p;;
  ret self.

(** [self.identifiers].  On a [StudyIdentifier] it is the property:
    [return self.__dict__], the instance's own attribute dictionary and no
    copy of it.  The class of any other instance has no such property: the
    name is looked up as any attribute is. *)
Definition identifiers (self : value) : M value :=
  fun h => match self with
           | VRef l =>
               match h !! l with
               | Some (OInstance cls d) =>
                   if String.eqb cls "StudyIdentifier" then (Ok (VRef d), h)
                   else (lookup_attr h self "identifiers", h)
               | Some _ => (Raise (AttributeError "identifiers"), h)
               | None => (Raise Unmodelled, h)
               end
           | _ => (Raise (AttributeError "identifiers"), h)
           end.

End StudyIdentifier.

(** ** The biocaddie mapping *)

(** [for x in v] over a list object.  [pht_entries] is declared [List[str]];
    the other iterables of Python are outside the fragment. *)
Definition list_iter (v : value) : M (list value) :=
  fun h => match v with
           | VRef l =>
               match h !! l with
               | Some (OList items) => (Ok items, h)
               | Some _ => (Raise Unmodelled, h)
               | None => (Raise Unmodelled, h)
               end
           | VStr _ => (Raise Unmodelled, h)
           | _ => (Raise TypeError, h)
           end.

(** A list comprehension's body, run on each element in order. *)
Fixpoint for_each {A B} (f : A -> M B) (xs : list A) : M (list B) :=
  match xs with
  | [] => ret []
  | x :: rest =>
      let* y := f x in
      let* ys := for_each f rest in
      ret (y :: ys)
  end.

Module JsonObj.

(** [jsonasobj.JsonObj()]: an instance with no attribute yet. *)
Definition new : M value := new_instance "JsonObj".

(** [obj[key] = value]: an entry of the instance's [__dict__], as an attribute
    assignment is. *)
Definition __setitem__ (self : value) (key : string) (x : value) : M unit :=
  fun h => match self with
           | VRef l =>
               match h !! l with
               | Some (OInstance _ d) => dict_setitem d key x h
               | Some _ => (Raise TypeError, h)
               | None => (Raise Unmodelled, h)
               end
           | _ => (Raise TypeError, h)
           end.

End JsonObj.

Section Biocaddie.

(** The prefix constant of [dbgap.constants], a string. *)
Variable DBGAP : string.

(** [biocaddie_json(raw_json, pht_entries)]. *)
Definition biocaddie_json (raw_json pht_entries : value) : M value :=
  let* gap := getattr raw_json "GaPExchange" in
  let* studies := getattr gap "Studies" in
  let* study := getattr studies "Study" in
  let* study_entry := JsonObj.new in
  JsonObj.__setitem__ study_entry "@type" (VStr "Study");;
  let* accession := getattr study "accession" in
  let* identifier := str_add (VStr DBGAP) accession in
  let* info := new_dict [("identifier", identifier);
                         ("identifierScheme", VStr "dbGaP")] in
  let* infos := new_list [info] in
  setattr study_entry "identifierInfo" infos;;
  let* config := getattr study "Configuration" in
  let* title := getattr config "StudyNameEntrez" in
  setattr study_entry "title" title;;
  let* config := getattr study "Configuration" in
  let* description := getattr config "StudyNameReportPage" in
  setattr study_entry "description" description;;
  let* config := getattr study "Configuration" in
  let* types := getattr config "StudyTypes" in
  let* study_types := getattr types "StudyType" in
  setattr study_entry "study_types" study_types;;
  let* phts := list_iter pht_entries in
  let* prefixed := for_each (fun pht => str_add (VStr DBGAP) pht) phts in
  let* results := new_list prefixed in
  setattr study_entry "resultsIn" results;;
  ret study_entry.

(** *** What a call reads and what it builds *)

(** The five inputs of one mapping: the accession string, the three values
    copied from the configuration, and the pht strings. *)
Record study_fields := {
  sf_accession : string;
  sf_title : value;
  sf_description : value;
  sf_study_types : value;
  sf_phts : list string
}.

Definition as_str (v : value) : res string :=
  match v with
  | VStr s => Ok s
  | _ => Raise TypeError
  end.

Fixpoint all_str (vs : list value) : res (list string) :=
  match vs with
  | [] => Ok []
  | v :: rest =>
      match as_str v with
      | Ok s =>
          match all_str rest with
          | Ok ss => Ok (s :: ss)
          | Raise e => Raise e
          end
      | Raise e => Raise e
      end
  end.

Definition study_path : list string := ["GaPExchange"; "Studies"; "Study"].

(** The reads of [biocaddie_json] in the order of the source, all taken on
    the store [h] the call starts from.  [biocaddie_json_run] below shows that
    the call, which reads while it allocates, sees just this. *)
Definition read_inputs (h : heap) (raw_json pht_entries : value) : res study_fields :=
  match path_get h raw_json study_path with
  | Raise e => Raise e
  | Ok study =>
  match lookup_attr h study "accession" with
  | Raise e => Raise e
  | Ok acc =>
  match as_str acc with
  | Raise e => Raise e
  | Ok a =>
  match path_get h study ["Configuration"; "StudyNameEntrez"] with
  | Raise e => Raise e
  | Ok t =>
  match path_get h study ["Configuration"; "StudyNameReportPage"] with
  | Raise e => Raise e
  | Ok d =>
  match path_get h study ["Configuration"; "StudyTypes"; "StudyType"] with
  | Raise e => Raise e
  | Ok st =>
  match fst (list_iter pht_entries h) with
  | Raise e => Raise e
  | Ok items =>
  match all_str items with
  | Raise e => Raise e
  | Ok ps =>
      Ok {| sf_accession := a; sf_title := t; sf_description := d;
            sf_study_types := st; sf_phts := ps |}
  end end end end end end end end.

Definition prefixed (ps : list string) : list value :=
  map (fun s => VStr (DBGAP +:+ s)) ps.

(** The five objects a successful call adds to a store of [n] objects: the
    entry's [__dict__], the entry, the identifier dict, the [identifierInfo]
    list and the [resultsIn] list. *)
Definition built (n : nat) (f : study_fields) : list obj :=
  [ ODict [("@type", VStr "Study");
           ("identifierInfo", VRef (n + 3));
           ("title", sf_title f);
           ("description", sf_description f);
           ("study_types", sf_study_types f);
           ("resultsIn", VRef (n + 4))];
    OInstance "JsonObj" n;
    ODict [("identifier", VStr (DBGAP +:+ sf_accession f));
           ("identifierScheme", VStr "dbGaP")];
    OList [VRef (n + 2)];
    OList (prefixed (sf_phts f)) ].

(** What a call gives, against what it reads on the store it starts from: the
    five new objects when the reads succeed, and the error of the first read
    that fails otherwise.  The store only grows. *)
Definition run_matches (h : heap) (expected : res study_fields)
    (actual : res value * heap) : Prop :=
  match expected with
  | Ok f => actual = (Ok (VRef (length h + 1)), h ++ built (length h) f)
  | Raise e =>
      exists e' ext, actual = (Raise e', h ++ ext) /\ (e <> Unmodelled -> e' = e)
  end.

End Biocaddie.

(** ** Specification vocabulary *)

(** [s] padded on the left with zeros to [w] characters, never cut. *)
Definition zero_pad (w : nat) (s : string) : string :=
  pad "0" (w - String.length s) +:+ s.

(** The number a string of decimal digits denotes. *)
Fixpoint decimal_value_go (acc : Z) (s : string) : Z :=
  match s with
  | EmptyString => acc
  | String c rest => decimal_value_go (10 * acc + Z.of_nat (digit_val c))%Z rest
  end.

Definition decimal_value (s : string) : Z := decimal_value_go 0 s.

(** The paths [biocaddie_json] consumes. *)
Definition accession_path : list string :=
  ["GaPExchange"; "Studies"; "Study"; "accession"].
Definition title_path : list string :=
  ["GaPExchange"; "Studies"; "Study"; "Configuration"; "StudyNameEntrez"].
Definition description_path : list string :=
  ["GaPExchange"; "Studies"; "Study"; "Configuration"; "StudyNameReportPage"].
Definition study_types_path : list string :=
  ["GaPExchange"; "Studies"; "Study"; "Configuration"; "StudyTypes"; "StudyType"].

Definition consumed_paths : list (list string) :=
  [accession_path; title_path; description_path; study_types_path].

Definition output_keys : list string :=
  ["@type"; "identifierInfo"; "title"; "description"; "study_types"; "resultsIn"].

(** The value a reference stands for, unfolded to depth [fuel]: two values are
    structurally equal when their trees agree at every depth. *)
#[local] Unset Elimination Schemes.
Inductive tree :=
| TNone
| TBool (b : bool)
| TInt (z : Z)
| TStr (s : string)
| TList (items : list tree)
| TDict (items : list (string * tree))
| TObj (cls : string) (attrs : list (string * tree))
| TCut
| TDangling.
#[local] Set Elimination Schemes.

Fixpoint reify (fuel : nat) (h : heap) (v : value) {struct fuel} : tree :=
  match v with
  | VNone => TNone
  | VBool b => TBool b
  | VInt z => TInt z
  | VStr s => TStr s
  | VRef l =>
      match fuel with
      | O => TCut
      | S f =>
          let entry (kv : string * value) := (fst kv, reify f h (snd kv)) in
          match h !! l with
          | Some (OList items) => TList (map (reify f h) items)
          | Some (ODict items) => TDict (map entry items)
          | Some (OInstance cls d) =>
              match h !! d with
              | Some (ODict items) => TObj cls (map entry items)
              | _ => TDangling
              end
          | None => TDangling
          end
      end
  end.

(** *** Identifier strings *)

(** The three strings, as the format strings of [__init__] build them. *)
Definition studyid_of (id_ : Z) : string := "phs" +:+ format_int true 6 id_.
Definition versionedid_of (id_ v : Z) : string :=
  studyid_of id_ +:+ ".v" +:+ str_int v.
Definition fullid_of (id_ v p : Z) : string :=
  versionedid_of id_ v +:+ ".p" +:+ str_int p.

(** The names of the three attributes [__init__] sets. *)
Definition attribute_names : list string := ["studyid"; "versionedid"; "fullid"].

(** The [__dict__] of a fresh [StudyIdentifier]. *)
Definition identifier_dict (id_ v p : Z) : list (string * value) :=
  [("studyid", VStr (studyid_of id_));
   ("versionedid", VStr (versionedid_of id_ v));
   ("fullid", VStr (fullid_of id_ v p))].

(** *** Stores that grow *)

(** The objects [ext] added to [h] cannot answer a read of [name]: their
    dicts have no such key and their instances keep their [__dict__] among
    them. *)
Definition fresh_for (h : heap) (name : string) (ext : list obj) : Prop :=
  Forall (fun o => match o with
                   | OInstance _ d => length h <= d
                   | ODict items => dict_get items name = None
                   | OList _ => True
                   end) ext.

(** The lists [ext] adds hold something that is no string. *)
Definition no_str_list (ext : list obj) : Prop :=
  Forall (fun o => match o with
                   | OList items => all_str items = Raise TypeError
                   | _ => True
                   end) ext.

(** The objects [objs] stand in the store from location [a] on. *)
Definition holds_at (H : heap) (a : nat) (objs : list obj) : Prop :=
  forall i o, objs !! i = Some o -> H !! (a + i) = Some o.

(** *** Example documents *)

(** A sample value for the [DBGAP] prefix. *)
Definition sample_prefix : string := "dbgap:".

(** A raw document as [jsonasobj] loads it, with the pht list at location 13:
    accession [phs000123.v4.p5], the study names, one study type. *)
Definition example_store : heap :=
  [ ODict [("GaPExchange", VRef 3)]; OInstance "JsonObj" 0;
    ODict [("Studies", VRef 5)]; OInstance "JsonObj" 2;
    ODict [("Study", VRef 7)]; OInstance "JsonObj" 4;
    ODict [("accession", VStr "phs000123.v4.p5"); ("Configuration", VRef 9)];
    OInstance "JsonObj" 6;
    ODict [("StudyNameEntrez", VStr "Example Study");
           ("StudyNameReportPage", VStr "An example.");
           ("StudyTypes", VRef 11)];
    OInstance "JsonObj" 8;
    ODict [("StudyType", VRef 12)]; OInstance "JsonObj" 10;
    OList [VStr "Case Set"];
    OList [VStr "pht000111"; VStr "pht000112"] ].

Definition example_raw : value := VRef 1.
Definition example_phts : value := VRef 13.

(** The same document with a JSON number as accession. *)
Definition numeric_accession_store : heap :=
  <[6 := ODict [("accession", VInt 5); ("Configuration", VRef 9)]]> example_store.

(** A document with a JSON number as accession and no [StudyNameEntrez]. *)
Definition numeric_untitled_store : heap :=
  <[8 := ODict [("StudyNameReportPage", VStr "An example.");
                ("StudyTypes", VRef 11)]]> numeric_accession_store.

(** The example document without its [StudyNameEntrez]. *)
Definition untitled_store : heap :=
  <[8 := ODict [("StudyNameReportPage", VStr "An example.");
                ("StudyTypes", VRef 11)]]> example_store.

(** ** Operations of the callers *)

(** [v.append(x)].  A list takes the element at its end.  On an instance the
    name is looked up as any attribute is: a JSON value found there is not
    callable. *)
Definition list_append (v x : value) : M unit :=
  fun h => match v with
           | VRef l =>
               match h !! l with
               | Some (OList items) => (Ok tt, <[l := OList (items ++ [x])]> h)
               | Some (ODict _) => (Raise (AttributeError "append"), h)
               | Some (OInstance _ _) =>
                   match lookup_attr h v "append" with
                   | Ok _ => (Raise TypeError, h)
                   | Raise e => (Raise e, h)
                   end
               | None => (Raise Unmodelled, h)
               end
           | _ => (Raise (AttributeError "append"), h)
           end.

(** *** Reading a study id back *)

Fixpoint digits_only (s : string) : bool :=
  match s with
  | EmptyString => true
  | String c rest => is_digit c && digits_only rest
  end.

(** The integer of a canonical study id: ["phs"], then digits and nothing
    else. *)
Definition parse_studyid (s : string) : option Z :=
  match s with
  | String "p" (String "h" (String "s" rest)) =>
      if digits_only rest then Some (decimal_value rest) else None
  | _ => None
  end.

(** ** get_study_information *)

Section Fetch.

(** The errors of the file downloader, whatever they are. *)
Variable E : Type.

(** What a fetch can raise: an exception of the fragment above, the
    [KeyError] of a mapping key, or an error of the downloader. *)
Inductive fetch_exn :=
| PyError (e : exn)
| KeyError (key : string)
| DownloadError (e : E).

Inductive fres (A : Type) :=
| FOk (a : A)
| FRaise (e : fetch_exn).
Arguments FOk {A} a.
Arguments FRaise {A} e.

Definition fprepend (s : string) (r : fres string) : fres string :=
  match r with
  | FOk t => FOk (s +:+ t)
  | FRaise e => FRaise e
  end.

(** Where the scan of a format string stands when the argument is a mapping:
    in literal text; inside the parentheses of a key, [depth] of them open;
    or inside a conversion, right after its [%] or later, with the value of
    its key (if it has one), the flag and the width read so far. *)
Inductive map_state :=
| MLiteral
| MKey (depth : nat) (key : string)
| MSpec (start : bool) (arg : option value) (zero : bool) (width : option nat).

(** [fmt % mapping], left to right.  A key runs to the parenthesis that
    closes it and is looked up as soon as it is read; a conversion without a
    key would format the mapping itself and is outside the fragment. *)
Fixpoint format_map_go (st : map_state) (fmt : string)
    (items : list (string * value)) : fres string :=
  match fmt with
  | EmptyString =>
      match st with
      | MLiteral => FOk ""
      | _ => FRaise (PyError ValueError)
      end
  | String c rest =>
      match st with
      | MLiteral =>
          if Ascii.eqb c "%" then
            format_map_go (MSpec true None false None) rest items
          else fprepend (String c "") (format_map_go MLiteral rest items)
      | MKey depth key =>
          if Ascii.eqb c ")" then
            match depth with
            | 0 | 1 =>
                match dict_get items key with
                | Some v => format_map_go (MSpec false (Some v) false None) rest items
                | None => FRaise (KeyError key)
                end
            | S d => format_map_go (MKey d (key +:+ String c "")) rest items
            end
          else if Ascii.eqb c "(" then
            format_map_go (MKey (S depth) (key +:+ String c "")) rest items
          else format_map_go (MKey depth (key +:+ String c "")) rest items
      | MSpec start arg zero width =>
          if start && Ascii.eqb c "(" then format_map_go (MKey 1 "") rest items
          else if is_digit c then
            match width with
            | None =>
                if Ascii.eqb c "0" then
                  format_map_go (MSpec false arg true None) rest items
                else format_map_go (MSpec false arg zero (Some (digit_val c))) rest items
            | Some w =>
                format_map_go (MSpec false arg zero (Some (10 * w + digit_val c)))
                  rest items
            end
          else if Ascii.eqb c "d" then
            match arg with
            | Some v =>
                match int_of v with
                | Some n =>
                    fprepend (format_int zero (default 0 width) n)
                      (format_map_go MLiteral rest items)
                | None => FRaise (PyError TypeError)
                end
            | None => FRaise (PyError Unmodelled)
            end
          else if Ascii.eqb c "s" then
            match arg with
            | Some v =>
                match str_of v with
                | Ok s =>
                    fprepend (format_str (default 0 width) s)
                      (format_map_go MLiteral rest items)
                | Raise e => FRaise (PyError e)
                end
            | None => FRaise (PyError Unmodelled)
            end
          else if Ascii.eqb c "%" then
            fprepend "%" (format_map_go MLiteral rest items)
          else FRaise (PyError Unmodelled)
      end
  end.

(** [fmt % m] for a dict [m] of the store. *)
Definition pyformat_map (fmt : string) (m : value) (h : heap) : fres string :=
  match m with
  | VRef d =>
      match h !! d with
      | Some (ODict items) => format_map_go MLiteral fmt items
      | _ => FRaise (PyError Unmodelled)
      end
  | _ => FRaise (PyError Unmodelled)
  end.

(** The two constants of [dbgap.constants] and the class of
    [dbgap.file_downloader], as the source uses them: the constructor gives a
    downloader or fails, and [download_file] gives the text of a path or
    fails; both may use the store. *)
Variable STUDY_FTP_SERVER : string.
Variable STUDY_FILE_TEMPLATE : string.
Variable FileDownloader : string -> heap -> (value + E) * heap.
Variable download_file : value -> string -> heap -> (string + E) * heap.

(** [get_study_information(studyid)]: the downloader is made first, then the
    template is formatted with the identifiers, then the file is fetched. *)
Definition get_study_information (studyid : value) : heap -> fres string * heap :=
  fun h =>
    match FileDownloader STUDY_FTP_SERVER h with
    | (inr e, h1) => (FRaise (DownloadError e), h1)
    | (inl downloader, h1) =>
        match StudyIdentifier.identifiers studyid h1 with
        | (Raise e, h2) => (FRaise (PyError e), h2)
        | (Ok mapping, h2) =>
            match pyformat_map STUDY_FILE_TEMPLATE mapping h2 with
            | FRaise e => (FRaise e, h2)
            | FOk path =>
                match download_file downloader path h2 with
                | (inl text, h3) => (FOk text, h3)
                | (inr e, h3) => (FRaise (DownloadError e), h3)
                end
            end
        end
    end.

(** *** Templates *)

(** A template as a sequence of literal text and [%(key)s] fields. *)
Inductive piece :=
| Lit (s : string)
| Field (key : string).

Definition render_piece (p : piece) : string :=
  match p with
  | Lit s => s
  | Field key => "%(" +:+ key +:+ ")s"
  end.

Fixpoint render (ps : list piece) : string :=
  match ps with
  | [] => ""
  | p :: rest => render_piece p +:+ render rest
  end.

Fixpoint no_char (c : ascii) (s : string) : bool :=
  match s with
  | EmptyString => true
  | String c' rest => negb (Ascii.eqb c' c) && no_char c rest
  end.

(** Literal text has no [%], a key no parenthesis. *)
Definition well_formed (p : piece) : bool :=
  match p with
  | Lit s => no_char "%" s
  | Field key => no_char "(" key && no_char ")" key
  end.

(** The template with each field replaced by [str] of the mapping's value,
    or the error of the first field that has none. *)
Fixpoint substitute (items : list (string * value)) (ps : list piece)
  : fres string :=
  match ps with
  | [] => FOk ""
  | Lit s :: rest => fprepend s (substitute items rest)
  | Field key :: rest =>
      match dict_get items key with
      | None => FRaise (KeyError key)
      | Some v =>
          match str_of v with
          | Ok t => fprepend t (substitute items rest)
          | Raise e => FRaise (PyError e)
          end
      end
  end.

End Fetch.

Arguments PyError {E} e.
Arguments KeyError {E} key.
Arguments DownloadError {E} e.
Arguments FOk {E A} a.
Arguments FRaise {E A} e.

(** The text a piece stands for with the strings of an identifier built
    from [id_], [v] and [p]. *)
Definition fill_piece (id_ v p : Z) (pc : piece) : string :=
  match pc with
  | Lit s => s
  | Field key =>
      if String.eqb key "studyid" then studyid_of id_
      else if String.eqb key "versionedid" then versionedid_of id_ v
      else if String.eqb key "fullid" then fullid_of id_ v p
      else ""
  end.

Fixpoint fill (id_ v p : Z) (ps : list piece) : string :=
  match ps with
  | [] => ""
  | pc :: rest => fill_piece id_ v p pc +:+ fill id_ v p rest
  end.

(** The fields an identifier can fill. *)
Definition identifier_field (pc : piece) : bool :=
  match pc with
  | Lit _ => true
  | Field key =>
      String.eqb key "studyid" || String.eqb key "versionedid"
      || String.eqb key "fullid"
  end.

(** A stand-in downloader for the examples: making it costs nothing and a
    download gives the path back as the text. *)
Definition echo_downloader (server : string) (h : heap) : (value + string) * heap :=
  (inl VNone, h).
Definition echo_download (d : value) (path : string) (h : heap)
  : (string + string) * heap := (inl path, h).

(** A template in the manner of the archive's layout. *)
Definition sample_template : list piece :=
  [Lit "studies/"; Field "studyid"; Lit "/"; Field "fullid";
   Lit "/GapExchange_"; Field "fullid"; Lit ".xml"].

(** The example document with a number among its pht entries. *)
Definition mixed_phts_store : heap :=
  <[13 := OList [VStr "pht000111"; VInt 7]]> example_store.

(** The example document with neither of its two study names. *)
Definition unnamed_store : heap :=
  <[8 := ODict [("StudyTypes", VRef 11)]]> example_store.

(** * Facts *)

(** ** Strings and decimal digits *)

Lemma append_cons (c : ascii) (s t : string) :
  String c s +:+ t = String c (s +:+ t).
Proof. reflexivity. Qed.

Lemma length_append (s t : string) :
  String.length (s +:+ t) = String.length s + String.length t.
Proof.
  induction s as [|c s IH]; [reflexivity|].
  rewrite append_cons. cbn [String.length]. now rewrite IH.
Qed.

Lemma append_empty_r (s : string) : s +:+ "" = s.
Proof.
  induction s as [|c s IH]; [reflexivity|]. now rewrite append_cons, IH.
Qed.

Lemma append_assoc (s t u : string) : (s +:+ t) +:+ u = s +:+ (t +:+ u).
Proof.
  induction s as [|c s IH]; [reflexivity|]. now rewrite !append_cons, IH.
Qed.

Lemma digit_val_char (d : Z) :
  (0 <= d < 10)%Z -> Z.of_nat (digit_val (digit_char d)) = d.
Proof.
  intros Hd. unfold digit_val, digit_char.
  rewrite nat_ascii_embedding by lia. lia.
Qed.

Lemma decimal_value_go_app (s t : string) (acc : Z) :
  decimal_value_go acc (s +:+ t) = decimal_value_go (decimal_value_go acc s) t.
Proof.
  revert acc. induction s as [|c s IH]; intros acc; [reflexivity|].
  rewrite append_cons. cbn [decimal_value_go]. apply IH.
Qed.

(** With enough fuel the digits denote the number they were taken from. *)
Lemma decimal_value_go_decimal (fuel : nat) :
  forall n acc, (0 <= n < 2 ^ Z.of_nat fuel)%Z ->
    decimal_value_go acc (decimal_go fuel n)
    = (acc * 10 ^ Z.of_nat (String.length (decimal_go fuel n)) + n)%Z.
Proof.
  induction fuel as [|f IH]; intros n acc Hn.
  - change (2 ^ Z.of_nat 0)%Z with 1%Z in Hn. simpl. lia.
  - cbn [decimal_go]. destruct (Z.ltb_spec n 10) as [Hlt|Hge].
    + cbn [decimal_value_go String.length]. rewrite digit_val_char by lia.
      change (Z.of_nat 1) with 1%Z. lia.
    + rewrite decimal_value_go_app, length_append.
      assert (Hq : (0 <= n / 10 < 2 ^ Z.of_nat f)%Z).
      { split; [apply Z.div_pos; lia|].
        rewrite Nat2Z.inj_succ, Z.pow_succ_r in Hn by lia.
        apply Z.div_lt_upper_bound; lia. }
      rewrite (IH _ acc Hq). cbn [decimal_value_go String.length].
      rewrite digit_val_char by (apply Z.mod_pos_bound; lia).
      rewrite Nat2Z.inj_add. change (Z.of_nat 1) with 1%Z.
      rewrite Z.pow_add_r by lia.
      pose proof (Z.div_mod n 10 ltac:(lia)) as Hdm. lia.
Qed.

Lemma decimal_fuel (n : Z) :
  (0 <= n)%Z -> (0 <= n < 2 ^ Z.of_nat (S (Z.to_nat (Z.log2 n))))%Z.
Proof.
  intros Hn. split; [exact Hn|].
  rewrite Nat2Z.inj_succ, Z2Nat.id by apply Z.log2_nonneg.
  destruct (Z.eq_dec n 0%Z) as [->|Hne]; [reflexivity|].
  apply Z.log2_spec. lia.
Qed.

(** [decimal] is the decimal representation: read back, it gives the number. *)
Lemma decimal_value_decimal (n : Z) :
  (0 <= n)%Z -> decimal_value (decimal n) = n.
Proof.
  intros Hn. unfold decimal_value, decimal.
  rewrite decimal_value_go_decimal by (apply decimal_fuel; exact Hn). lia.
Qed.

(** A number below [10^k] has at most [k] digits. *)
Lemma decimal_go_length_le (fuel : nat) :
  forall n k, (0 <= n < 10 ^ Z.of_nat (S k))%Z ->
    String.length (decimal_go fuel n) <= S k.
Proof.
  induction fuel as [|f IH]; intros n k Hn; cbn [decimal_go].
  - simpl. lia.
  - destruct (Z.ltb_spec n 10) as [Hlt|Hge].
    + simpl. lia.
    + rewrite length_append. cbn [String.length].
      destruct k as [|k]; [change (10 ^ Z.of_nat 1)%Z with 10%Z in Hn; lia|].
      assert (Hq : (0 <= n / 10 < 10 ^ Z.of_nat (S k))%Z).
      { split; [apply Z.div_pos; lia|].
        rewrite (Nat2Z.inj_succ (S k)), Z.pow_succ_r in Hn by lia.
        apply Z.div_lt_upper_bound; lia. }
      specialize (IH _ _ Hq). lia.
Qed.

(** A number from [10^k] on has more than [k] digits, given enough fuel. *)
Lemma decimal_go_length_gt (fuel : nat) :
  forall n k, (10 ^ Z.of_nat k <= n < 2 ^ Z.of_nat fuel)%Z ->
    k < String.length (decimal_go fuel n).
Proof.
  induction fuel as [|f IH]; intros n k Hn; cbn [decimal_go].
  - assert (0 < 10 ^ Z.of_nat k)%Z by (apply Z.pow_pos_nonneg; lia).
    simpl in Hn. lia.
  - destruct (Z.ltb_spec n 10) as [Hlt|Hge].
    + destruct k as [|k]; [simpl; lia|].
      rewrite Nat2Z.inj_succ, Z.pow_succ_r in Hn by lia.
      assert (0 < 10 ^ Z.of_nat k)%Z by (apply Z.pow_pos_nonneg; lia). lia.
    + rewrite length_append. cbn [String.length].
      destruct k as [|k]; [lia|].
      assert (Hq : (10 ^ Z.of_nat k <= n / 10 < 2 ^ Z.of_nat f)%Z).
      { rewrite (Nat2Z.inj_succ k), Z.pow_succ_r in Hn by lia.
        rewrite (Nat2Z.inj_succ f), Z.pow_succ_r in Hn by lia.
        split; [apply Z.div_le_lower_bound; lia|].
        apply Z.div_lt_upper_bound; lia. }
      specialize (IH _ _ Hq). lia.
Qed.

Lemma decimal_length_le (n : Z) (k : nat) :
  (0 <= n < 10 ^ Z.of_nat (S k))%Z -> String.length (decimal n) <= S k.
Proof. apply decimal_go_length_le. Qed.

Lemma decimal_length_gt (n : Z) (k : nat) :
  (10 ^ Z.of_nat k <= n)%Z -> k < String.length (decimal n).
Proof.
  intros Hn. apply decimal_go_length_gt.
  assert (0 < 10 ^ Z.of_nat k)%Z by (apply Z.pow_pos_nonneg; lia).
  pose proof (decimal_fuel n ltac:(lia)). lia.
Qed.

Lemma decimal_length_pos (n : Z) : 0 < String.length (decimal n).
Proof.
  unfold decimal. cbn [decimal_go].
  destruct (n <? 10)%Z; [simpl; lia|]. rewrite length_append. simpl. lia.
Qed.

Lemma length_pad (c : ascii) (n : nat) : String.length (pad c n) = n.
Proof. induction n as [|n IH]; simpl; [reflexivity | now rewrite IH]. Qed.

(** *** The conversions of the three format strings *)

Lemma format_int_nonneg (w : nat) (n : Z) :
  (0 <= n)%Z -> format_int true w n = zero_pad w (decimal n).
Proof.
  intros Hn. unfold format_int, zero_pad.
  destruct (Z.ltb_spec n 0) as [Hlt|_]; [lia|].
  rewrite Z.abs_eq by exact Hn. reflexivity.
Qed.

Lemma format_int_plain (n : Z) : format_int false 0 n = str_int n.
Proof.
  unfold format_int, str_int.
  destruct (Z.ltb_spec n 0) as [Hlt|Hge]; simpl.
  - now rewrite Z.abs_neq by lia.
  - now rewrite Z.abs_eq by lia.
Qed.

(** A field wider than the minimum is left as it is. *)
Lemma format_int_wide (w : nat) (n : Z) :
  (0 <= n)%Z -> w <= String.length (decimal n) ->
  format_int true w n = decimal n.
Proof.
  intros Hn Hw. rewrite format_int_nonneg by exact Hn. unfold zero_pad.
  replace (w - String.length (decimal n)) with 0 by lia. reflexivity.
Qed.

Lemma format_studyid (n : Z) :
  format_go Literal "phs%06d" [VInt n] = Ok ("phs" +:+ format_int true 6 n).
Proof.
  change (format_go Literal "phs%06d" [VInt n])
    with (Ok ("phs" +:+ (format_int true 6 n +:+ ""))).
  now rewrite append_empty_r.
Qed.

Lemma format_versionedid (s : string) (n : Z) :
  format_go Literal "%s.v%d" [VStr s; VInt n] = Ok (s +:+ ".v" +:+ str_int n).
Proof.
  change (format_go Literal "%s.v%d" [VStr s; VInt n])
    with (Ok (s +:+ (".v" +:+ (format_int false 0 n +:+ "")))).
  now rewrite append_empty_r, format_int_plain.
Qed.

Lemma format_fullid (s : string) (n : Z) :
  format_go Literal "%s.p%d" [VStr s; VInt n] = Ok (s +:+ ".p" +:+ str_int n).
Proof.
  change (format_go Literal "%s.p%d" [VStr s; VInt n])
    with (Ok (s +:+ (".p" +:+ (format_int false 0 n +:+ "")))).
  now rewrite append_empty_r, format_int_plain.
Qed.

(** ** The store *)

Lemma lookup_app_plus (h ext : heap) (i : nat) :
  (h ++ ext) !! (length h + i) = ext !! i.
Proof.
  rewrite lookup_app_r by lia. f_equal. lia.
Qed.

Lemma lookup_app_here (h ext : heap) : (h ++ ext) !! length h = ext !! 0.
Proof.
  pose proof (lookup_app_plus h ext 0) as H. now rewrite Nat.add_0_r in H.
Qed.

Lemma insert_app_here (h ext : heap) (o : obj) :
  <[length h := o]> (h ++ ext) = h ++ <[0 := o]> ext.
Proof.
  pose proof (insert_app_r h ext 0 o) as H. now rewrite Nat.add_0_r in H.
Qed.

Lemma alloc_app (h ext : heap) (o : obj) :
  alloc o (h ++ ext) = (Ok (length h + length ext), h ++ (ext ++ [o])).
Proof. unfold alloc. now rewrite length_app, app_assoc. Qed.

Lemma new_instance_run (cls : string) (h : heap) :
  new_instance cls h
  = (Ok (VRef (length h + 1)), h ++ [ODict []; OInstance cls (length h)]).
Proof.
  unfold new_instance, bind, alloc, ret.
  rewrite length_app, <- app_assoc. reflexivity.
Qed.

(** Reading and writing the attributes of the instance a call has just made:
    its [__dict__] is the object right before it. *)
Lemma lookup_attr_fresh (h t : heap) items cls name :
  lookup_attr (h ++ ODict items :: OInstance cls (length h) :: t)
    (VRef (length h + 1)) name
  = match dict_get items name with
    | Some x => Ok x
    | None => Raise (AttributeError name)
    end.
Proof.
  unfold lookup_attr. rewrite lookup_app_plus. cbn [lookup list_lookup].
  rewrite lookup_app_here. reflexivity.
Qed.

Lemma dict_setitem_fresh (h t : heap) items name x :
  dict_setitem (length h) name x (h ++ ODict items :: t)
  = (Ok tt, h ++ ODict (dict_set items name x) :: t).
Proof.
  unfold dict_setitem. rewrite lookup_app_here. cbn [lookup list_lookup].
  rewrite insert_app_here. reflexivity.
Qed.

Lemma setattr_fresh (h t : heap) items cls name x :
  setattr (VRef (length h + 1)) name x
    (h ++ ODict items :: OInstance cls (length h) :: t)
  = (Ok tt, h ++ ODict (dict_set items name x) :: OInstance cls (length h) :: t).
Proof.
  unfold setattr. rewrite lookup_app_plus. cbn [lookup list_lookup].
  apply dict_setitem_fresh.
Qed.

Lemma setitem_fresh (h t : heap) items cls name x :
  JsonObj.__setitem__ (VRef (length h + 1)) name x
    (h ++ ODict items :: OInstance cls (length h) :: t)
  = (Ok tt, h ++ ODict (dict_set items name x) :: OInstance cls (length h) :: t).
Proof.
  unfold JsonObj.__setitem__. rewrite lookup_app_plus. cbn [lookup list_lookup].
  apply dict_setitem_fresh.
Qed.

(** ** StudyIdentifier *)

(** The constructor run on any store: it adds the instance and its
    [__dict__], holding the three strings, and changes nothing else. *)
Lemma new_run (id_ v p : Z) (h : heap) :
  StudyIdentifier.new id_ v p h
  = (Ok (VRef (length h + 1)),
     h ++ [ODict (identifier_dict id_ v p);
           OInstance "StudyIdentifier" (length h)]).
Proof.
  unfold StudyIdentifier.new, StudyIdentifier.__init__.
  unfold bind at 1. rewrite new_instance_run.
  unfold bind at 1. unfold bind at 1. unfold pyformat, lift.
  rewrite format_studyid.
  unfold bind at 1. rewrite setattr_fresh. cbn [dict_set].
  unfold bind at 1. unfold getattr. rewrite lookup_attr_fresh.
  cbn [dict_get String.eqb Ascii.eqb Bool.eqb].
  unfold bind at 1. rewrite format_versionedid.
  unfold bind at 1. rewrite setattr_fresh.
  cbn [dict_set String.eqb Ascii.eqb Bool.eqb].
  unfold bind at 1. rewrite lookup_attr_fresh.
  cbn [dict_get String.eqb Ascii.eqb Bool.eqb].
  unfold bind at 1. rewrite format_fullid.
  rewrite setattr_fresh. cbn [dict_set String.eqb Ascii.eqb Bool.eqb].
  reflexivity.
Qed.

Lemma dict_get_set_same items k x : dict_get (dict_set items k x) k = Some x.
Proof.
  induction items as [|[k' v'] rest IH]; cbn [dict_set dict_get].
  - now rewrite String.eqb_refl.
  - destruct (String.eqb k' k) eqn:E; cbn [dict_get]; rewrite E; [reflexivity | exact IH].
Qed.

Lemma new_attrs (id_ v p : Z) (h : heap) :
  let h' := h ++ [ODict (identifier_dict id_ v p);
                  OInstance "StudyIdentifier" (length h)] in
  let self := VRef (length h + 1) in
  lookup_attr h' self "studyid" = Ok (VStr (studyid_of id_)) /\
  lookup_attr h' self "versionedid" = Ok (VStr (versionedid_of id_ v)) /\
  lookup_attr h' self "fullid" = Ok (VStr (fullid_of id_ v p)).
Proof. cbv zeta. rewrite !lookup_attr_fresh. repeat split. Qed.

Lemma identifiers_fresh (h t : heap) items :
  StudyIdentifier.identifiers (VRef (length h + 1))
    (h ++ ODict items :: OInstance "StudyIdentifier" (length h) :: t)
  = (Ok (VRef (length h)),
     h ++ ODict items :: OInstance "StudyIdentifier" (length h) :: t).
Proof.
  unfold StudyIdentifier.identifiers. rewrite lookup_app_plus. reflexivity.
Qed.

(** [identifiers] on any store that holds a [StudyIdentifier] at [l]. *)
Lemma identifiers_at (H : heap) (l d : nat) :
  H !! l = Some (OInstance "StudyIdentifier" d) ->
  StudyIdentifier.identifiers (VRef l) H = (Ok (VRef d), H).
Proof. intros Hl. unfold StudyIdentifier.identifiers. now rewrite Hl. Qed.

Lemma lookup_attr_held (H : heap) i cls d items name :
  H !! i = Some (OInstance cls d) -> H !! d = Some (ODict items) ->
  lookup_attr H (VRef i) name
  = match dict_get items name with
    | Some x => Ok x
    | None => Raise (AttributeError name)
    end.
Proof. intros Hi Hd. unfold lookup_attr. now rewrite Hi, Hd. Qed.

(** C1.  For [0 <= id < 1000000], [v >= 0] and [p >= 0] the constructor
    returns an object whose [studyid] is ["phs"] followed by [id] zero-padded
    to six digits (nine characters in all), whose [versionedid] is
    [studyid + ".v" + decimal v] and whose [fullid] is
    [versionedid + ".p" + decimal p]. *)
Theorem study_identifier_strings (id_ v p : Z) (h : heap) :
  (0 <= id_ < 1000000)%Z -> (0 <= v)%Z -> (0 <= p)%Z ->
  exists self h',
    StudyIdentifier.new id_ v p h = (Ok self, h') /\
    let studyid := "phs" +:+ zero_pad 6 (decimal id_) in
    let versionedid := (studyid +:+ ".v") +:+ decimal v in
    let fullid := (versionedid +:+ ".p") +:+ decimal p in
    lookup_attr h' self "studyid" = Ok (VStr studyid) /\
    lookup_attr h' self "versionedid" = Ok (VStr versionedid) /\
    lookup_attr h' self "fullid" = Ok (VStr fullid) /\
    String.length studyid = 9.
Proof.
  intros Hid Hv Hp. eexists _, _. split; [apply new_run|]. cbv zeta.
  destruct (new_attrs id_ v p h) as (H1 & H2 & H3).
  rewrite H1, H2, H3. unfold fullid_of, versionedid_of, studyid_of, str_int.
  destruct (Z.ltb_spec v 0) as [?|_]; [lia|].
  destruct (Z.ltb_spec p 0) as [?|_]; [lia|].
  rewrite format_int_nonneg by lia. rewrite !append_assoc.
  repeat split. unfold zero_pad.
  rewrite (length_append "phs"), length_append, length_pad.
  pose proof (decimal_length_le id_ 5 ltac:(change (10 ^ Z.of_nat 6)%Z with 1000000%Z; lia)).
  cbn [String.length]. lia.
Qed.

(** The scenario of the specification: id 123, version 4, participant set 5. *)
Lemma study_identifier_example :
  exists self h',
    StudyIdentifier.new 123 4 5 [] = (Ok self, h') /\
    lookup_attr h' self "studyid" = Ok (VStr "phs000123") /\
    lookup_attr h' self "versionedid" = Ok (VStr "phs000123.v4") /\
    lookup_attr h' self "fullid" = Ok (VStr "phs000123.v4.p5").
Proof.
  destruct (study_identifier_strings 123 4 5 [] ltac:(lia) ltac:(lia) ltac:(lia))
    as (self & h' & Hrun & H1 & H2 & H3 & _).
  exists self, h'. repeat split; assumption.
Defined.

(** C9.  The constructor validates nothing and never raises: for every three
    integers, negative and oversized ones too, it returns an object whose
    three attributes are the strings its format strings produce. *)
Theorem constructor_never_fails (id_ v p : Z) (h : heap) :
  exists self h',
    StudyIdentifier.new id_ v p h = (Ok self, h') /\
    lookup_attr h' self "studyid"
      = Ok (VStr ("phs" +:+ format_int true 6 id_)) /\
    lookup_attr h' self "versionedid"
      = Ok (VStr (("phs" +:+ format_int true 6 id_) +:+ ".v" +:+ str_int v)) /\
    lookup_attr h' self "fullid"
      = Ok (VStr ((("phs" +:+ format_int true 6 id_) +:+ ".v" +:+ str_int v)
                  +:+ ".p" +:+ str_int p)).
Proof.
  eexists _, _. split; [apply new_run|]. apply new_attrs.
Qed.

(** Non-canonical strings the constructor accepts to build. *)
Example negative_identifier :
  fst (StudyIdentifier.new (-5) (-4) 5 []) = Ok (VRef 1) /\
  lookup_attr (snd (StudyIdentifier.new (-5) (-4) 5 [])) (VRef 1) "fullid"
  = Ok (VStr "phs-00005.v-4.p5").
Proof. split; reflexivity. Qed.

(** C10.  From one million on, [studyid] is ["phs"] followed by all the
    decimal digits of [id]: the field widens, nothing is cut, and the digits
    read back give [id]. *)
Theorem studyid_widens (id_ v p : Z) (h : heap) :
  (1000000 <= id_)%Z ->
  exists self h',
    StudyIdentifier.new id_ v p h = (Ok self, h') /\
    lookup_attr h' self "studyid" = Ok (VStr ("phs" +:+ decimal id_)) /\
    decimal_value (decimal id_) = id_ /\
    9 < String.length ("phs" +:+ decimal id_).
Proof.
  intros Hid. eexists _, _. split; [apply new_run|].
  destruct (new_attrs id_ v p h) as (H1 & _).
  pose proof (decimal_length_gt id_ 6 ltac:(change (10 ^ Z.of_nat 6)%Z with 1000000%Z; lia)) as Hlen.
  rewrite H1. unfold studyid_of. rewrite format_int_wide by lia.
  split; [reflexivity|]. split; [apply decimal_value_decimal; lia|].
  rewrite length_append. cbn [String.length]. lia.
Qed.

Lemma studyid_widens_example :
  exists self h',
    StudyIdentifier.new 1234567 4 5 [] = (Ok self, h') /\
    lookup_attr h' self "studyid" = Ok (VStr "phs1234567").
Proof.
  destruct (studyid_widens 1234567 4 5 [] ltac:(lia)) as (self & h' & Hrun & H1 & _).
  exists self, h'. split; assumption.
Defined.

(** C7.  The mapping [identifiers] returns for an object constructed from
    [id_], [v] and [p] holds the three entries [studyid], [versionedid] and
    [fullid], each with the string [__init__] derived for the attribute of
    that name, and nothing else.  This holds right after construction and in
    every later store in which the object and its [__dict__] are as the
    constructor left them. *)
Theorem identifiers_entries (id_ v p : Z) (h : heap) :
  exists self d h',
    StudyIdentifier.new id_ v p h = (Ok (VRef self), h') /\
    forall h'' : heap,
      h'' !! self = h' !! self -> h'' !! d = h' !! d ->
      let studyid := "phs" +:+ format_int true 6 id_ in
      let versionedid := studyid +:+ ".v" +:+ str_int v in
      let fullid := versionedid +:+ ".p" +:+ str_int p in
      StudyIdentifier.identifiers (VRef self) h'' = (Ok (VRef d), h'') /\
      h'' !! d = Some (ODict [("studyid", VStr studyid);
                              ("versionedid", VStr versionedid);
                              ("fullid", VStr fullid)]) /\
      lookup_attr h'' (VRef self) "studyid" = Ok (VStr studyid) /\
      lookup_attr h'' (VRef self) "versionedid" = Ok (VStr versionedid) /\
      lookup_attr h'' (VRef self) "fullid" = Ok (VStr fullid).
Proof.
  exists (length h + 1), (length h),
    (h ++ [ODict (identifier_dict id_ v p);
           OInstance "StudyIdentifier" (length h)]).
  split; [apply new_run|].
  intros h'' Hself Hd. cbv zeta.
  rewrite lookup_app_plus in Hself. cbn [lookup list_lookup] in Hself.
  rewrite lookup_app_here in Hd. cbn [lookup list_lookup] in Hd.
  split; [now apply identifiers_at|]. split; [exact Hd|].
  rewrite !(lookup_attr_held _ _ _ _ _ _ Hself Hd). repeat split.
Qed.

(** C8, as the specification has it, fails: the mapping [identifiers] returns
    is the object's own [__dict__], and an item assignment on it changes the
    object's [studyid]. *)
Lemma identifiers_not_read_only :
  exists self d h1 h2,
    StudyIdentifier.new 123 4 5 [] = (Ok self, h1) /\
    StudyIdentifier.identifiers self h1 = (Ok (VRef d), h1) /\
    lookup_attr h1 self "studyid" = Ok (VStr "phs000123") /\
    dict_setitem d "studyid" (VStr "changed") h1 = (Ok tt, h2) /\
    lookup_attr h2 self "studyid" = Ok (VStr "changed").
Proof.
  eexists _, _, _, _. split; [apply new_run|].
  split; [apply identifiers_fresh|]. split; [reflexivity|].
  split; reflexivity.
Qed.

(** C8, amended.  The constructor sets the three strings; reading one of
    them or [identifiers] leaves the store as it is.  The mapping is the
    instance's own [__dict__], so it holds the three strings, and a write
    through it is a write to the object: after [d[k] = x] for [k] one of the
    three names, the attribute [k] of the object is [x]. *)
Theorem identifiers_is_own_dict (id_ v p : Z) (h : heap) :
  exists self h' d,
    StudyIdentifier.new id_ v p h = (Ok self, h') /\
    StudyIdentifier.identifiers self h' = (Ok (VRef d), h') /\
    (forall name, In name attribute_names -> snd (getattr self name h') = h') /\
    instance_dict h' self = Some (d, identifier_dict id_ v p) /\
    forall k x, In k attribute_names ->
      exists h2,
        dict_setitem d k x h' = (Ok tt, h2) /\ lookup_attr h2 self k = Ok x.
Proof.
  eexists _, _, _. split; [apply new_run|].
  split; [apply identifiers_fresh|]. split; [reflexivity|]. split.
  - unfold instance_dict. rewrite lookup_app_plus. cbn [lookup list_lookup].
    now rewrite lookup_app_here.
  - intros k x _. eexists. split; [apply dict_setitem_fresh|].
    rewrite lookup_attr_fresh. now rewrite dict_get_set_same.
Qed.

(** ** Reads under allocation *)

(** A read that succeeds keeps its result when the store grows. *)
Lemma lookup_attr_ext_ok (h ext : heap) v name x :
  lookup_attr h v name = Ok x -> lookup_attr (h ++ ext) v name = Ok x.
Proof.
  unfold lookup_attr. destruct v as [| | | |l]; try discriminate.
  destruct (h !! l) as [[items|items|cls d]|] eqn:El; try discriminate.
  rewrite (lookup_app_l_Some _ _ _ _ El).
  destruct (h !! d) as [[items|items|cls' d']|] eqn:Ed; try discriminate.
  now rewrite (lookup_app_l_Some _ _ _ _ Ed).
Qed.

(** So does a read that finds the attribute absent. *)
Lemma lookup_attr_ext_absent (h ext : heap) v name n :
  lookup_attr h v name = Raise (AttributeError n) ->
  lookup_attr (h ++ ext) v name = Raise (AttributeError n).
Proof.
  unfold lookup_attr. destruct v as [| | | |l]; try (intros H; exact H).
  destruct (h !! l) as [[items|items|cls d]|] eqn:El; try discriminate;
    rewrite (lookup_app_l_Some _ _ _ _ El); try (intros H; exact H).
  destruct (h !! d) as [[items|items|cls' d']|] eqn:Ed; try discriminate.
  now rewrite (lookup_app_l_Some _ _ _ _ Ed).
Qed.

(** Then a read that succeeds in the grown store succeeded before. *)
Lemma lookup_attr_ext_inv (h ext : heap) v name x :
  fresh_for h name ext ->
  lookup_attr (h ++ ext) v name = Ok x -> lookup_attr h v name = Ok x.
Proof.
  intros Hfresh. unfold lookup_attr. destruct v as [| | | |l]; try discriminate.
  assert (Hdict : forall d items,
    length h <= d -> (h ++ ext) !! d = Some (ODict items) ->
    dict_get items name = None).
  { intros d items Hd Hl. rewrite lookup_app_r in Hl by exact Hd.
    exact (proj1 (Forall_lookup _ _) Hfresh _ _ Hl). }
  destruct (decide (l < length h)) as [Hl|Hl].
  - rewrite lookup_app_l by exact Hl.
    destruct (h !! l) as [[items|items|cls d]|]; try discriminate.
    destruct (decide (d < length h)) as [Hd|Hd].
    + now rewrite lookup_app_l by exact Hd.
    + destruct ((h ++ ext) !! d) as [[items|items|cls' d']|] eqn:Ed;
        try discriminate.
      rewrite (Hdict d items ltac:(lia) Ed). discriminate.
  - destruct ((h ++ ext) !! l) as [[items|items|cls d]|] eqn:El;
      try discriminate.
    rewrite lookup_app_r in El by lia.
    pose proof (proj1 (Forall_lookup _ _) Hfresh _ _ El) as Hd. cbn in Hd.
    destruct ((h ++ ext) !! d) as [[items|items|cls' d']|] eqn:Ed;
      try discriminate.
    rewrite (Hdict d items Hd Ed). discriminate.
Qed.

(** A read raises [AttributeError] or meets a dangling reference. *)
Lemma lookup_attr_raise (h : heap) v name e :
  lookup_attr h v name = Raise e -> e = AttributeError name \/ e = Unmodelled.
Proof.
  unfold lookup_attr. intros H.
  repeat match type of H with
         | match ?t with _ => _ end = _ => destruct t
         end; inversion H; auto.
Qed.

(** The three facts in one: what a read in the grown store gives, from what it
    gives in the store the call started from. *)
Lemma lookup_attr_ext (h ext : heap) v name :
  fresh_for h name ext ->
  match lookup_attr h v name with
  | Ok x => lookup_attr (h ++ ext) v name = Ok x
  | Raise (AttributeError n) =>
      lookup_attr (h ++ ext) v name = Raise (AttributeError n)
  | Raise Unmodelled => exists e, lookup_attr (h ++ ext) v name = Raise e
  | Raise _ => False
  end.
Proof.
  intros Hfresh.
  destruct (lookup_attr h v name) as [x|e] eqn:E.
  - now apply lookup_attr_ext_ok.
  - destruct (lookup_attr_raise _ _ _ _ E) as [->| ->].
    + now apply lookup_attr_ext_absent.
    + destruct (lookup_attr (h ++ ext) v name) as [x|e'] eqn:E'; [|eauto].
      apply (lookup_attr_ext_inv _ _ _ _ _ Hfresh) in E'. congruence.
Qed.

Lemma all_str_raise (items : list value) (e : exn) :
  all_str items = Raise e -> e = TypeError.
Proof.
  induction items as [|v rest IH]; cbn [all_str]; [discriminate|].
  destruct v; cbn [as_str]; try (intros [= <-]; reflexivity).
  destruct (all_str rest); [discriminate|]. intros [= <-]. now apply IH.
Qed.

Lemma list_iter_ext (h ext : heap) (v : value) :
  no_str_list ext ->
  match fst (list_iter v h) with
  | Ok items => list_iter v (h ++ ext) = (Ok items, h ++ ext)
  | Raise TypeError => list_iter v (h ++ ext) = (Raise TypeError, h ++ ext)
  | Raise Unmodelled =>
      (exists e, list_iter v (h ++ ext) = (Raise e, h ++ ext)) \/
      (exists items, list_iter v (h ++ ext) = (Ok items, h ++ ext) /\
                     all_str items = Raise TypeError)
  | Raise _ => False
  end.
Proof.
  intros Hext. unfold list_iter. destruct v as [| | | |l]; cbn [fst]; eauto.
  destruct (h !! l) as [[items|items|cls d]|] eqn:El; cbn [fst];
    try (rewrite (lookup_app_l_Some _ _ _ _ El); eauto; fail).
  apply lookup_ge_None in El. rewrite lookup_app_r by exact El.
  destruct (ext !! (l - length h)) as [[items|items|cls d]|] eqn:E; eauto.
  right. exists items. split; [reflexivity|].
  exact (proj1 (Forall_lookup _ _) Hext _ _ E).
Qed.

Lemma new_dict_app (h ext : heap) items :
  new_dict items (h ++ ext)
  = (Ok (VRef (length h + length ext)), h ++ (ext ++ [ODict items])).
Proof. unfold new_dict, bind. now rewrite alloc_app. Qed.

Lemma new_list_app (h ext : heap) items :
  new_list items (h ++ ext)
  = (Ok (VRef (length h + length ext)), h ++ (ext ++ [OList items])).
Proof. unfold new_list, bind. now rewrite alloc_app. Qed.

Section BiocaddieFacts.

Variable DBGAP : string.

(** The comprehension of [resultsIn] leaves the store alone; it returns the
    prefixed strings, or raises at the first element that is no string. *)
Lemma for_each_prefix (items : list value) (h : heap) :
  for_each (fun pht => str_add (VStr DBGAP) pht) items h
  = (match all_str items with
     | Ok ps => Ok (prefixed DBGAP ps)
     | Raise e => Raise e
     end, h).
Proof.
  induction items as [|v rest IH]; cbn [for_each all_str]; [reflexivity|].
  unfold bind at 1. destruct v; cbn [str_add lift as_str]; try reflexivity.
  unfold bind at 1. rewrite IH.
  destruct (all_str rest); reflexivity.
Qed.

Lemma raised_ext (h ext : heap) (e : exn) :
  run_matches DBGAP h (Raise e) (Raise e, h ++ ext).
Proof. exists e, ext. split; [reflexivity | intros _; reflexivity]. Qed.

Lemma raised_dangling (h ext : heap) (e' : exn) :
  run_matches DBGAP h (Raise Unmodelled) (Raise e', h ++ ext).
Proof. exists e', ext. split; [reflexivity | intros H; now destruct H]. Qed.

Ltac prove_fresh :=
  unfold fresh_for, no_str_list;
  repeat first
    [ apply List.Forall_nil
    | apply List.Forall_cons; [first [exact I | reflexivity | cbn; lia] |] ].

(** One attribute read of the call, on the store grown so far. *)
Ltac read_ext :=
  unfold bind at 1; unfold getattr at 1;
  lazymatch goal with
  | |- context [lookup_attr (?h ++ ?ext) ?v ?name] =>
      let L := fresh "L" in
      assert (L := lookup_attr_ext h ext v name ltac:(prove_fresh));
      destruct (lookup_attr h v name) as [?|[?| | | ]] eqn:?;
      simplify_eq; cbv beta iota in L;
      lazymatch type of L with
      | _ = Ok _ => rewrite L; clear L; cbv beta iota
      | _ = Raise (AttributeError _) =>
          rewrite L; cbv beta iota; apply raised_ext
      | False => destruct L
      | _ =>
          let e := fresh "e" in
          destruct L as [e L]; rewrite L; cbv beta iota; apply raised_dangling
      end
  end.

Lemma biocaddie_json_run (raw pht : value) (h : heap) :
  run_matches DBGAP h (read_inputs h raw pht) (biocaddie_json DBGAP raw pht h).
Proof.
  unfold read_inputs, biocaddie_json, study_path. cbn [path_get].
  unfold bind at 1, getattr at 1.
  destruct (lookup_attr h raw "GaPExchange") as [gap|e];
    cbv beta iota; [|exists e, []; now rewrite app_nil_r].
  unfold bind at 1, getattr at 1.
  destruct (lookup_attr h gap "Studies") as [studies|e];
    cbv beta iota; [|exists e, []; now rewrite app_nil_r].
  unfold bind at 1, getattr at 1.
  destruct (lookup_attr h studies "Study") as [study|e];
    cbv beta iota; [|exists e, []; now rewrite app_nil_r].
  unfold bind at 1. unfold JsonObj.new. rewrite new_instance_run.
  unfold bind at 1. rewrite setitem_fresh. cbn [dict_set].
  read_ext.
  unfold bind at 1.
  destruct a as [| | |a|]; cbn [str_add lift as_str]; cbv beta iota;
    try apply raised_ext.
  unfold bind at 1. rewrite new_dict_app. cbn [length app].
  unfold bind at 1. rewrite new_list_app. cbn [length app].
  unfold bind at 1. rewrite setattr_fresh.
  cbn [dict_set String.eqb Ascii.eqb Bool.eqb].
  read_ext. read_ext.
  unfold bind at 1. rewrite setattr_fresh.
  cbn [dict_set String.eqb Ascii.eqb Bool.eqb].
  read_ext. read_ext.
  unfold bind at 1. rewrite setattr_fresh.
  cbn [dict_set String.eqb Ascii.eqb Bool.eqb].
  read_ext. read_ext. read_ext.
  unfold bind at 1. rewrite setattr_fresh.
  cbn [dict_set String.eqb Ascii.eqb Bool.eqb].
  unfold bind at 1.
  lazymatch goal with
  | |- context [list_iter pht (h ++ ?ext)] =>
      assert (L := list_iter_ext h ext pht ltac:(prove_fresh))
  end.
  destruct (list_iter pht h).1 as [items|[n| | |]]; cbv beta iota in L;
    try (destruct L; fail).
  - rewrite L. cbv beta iota. unfold bind at 1. rewrite for_each_prefix.
    destruct (all_str items) as [ps|e]; cbv beta iota; [|apply raised_ext].
    unfold bind at 1. rewrite new_list_app. cbn [length app].
    unfold bind at 1. rewrite setattr_fresh.
    cbn [dict_set String.eqb Ascii.eqb Bool.eqb]. reflexivity.
  - rewrite L. apply raised_ext.
  - destruct L as [[e L]|(items & L & Hitems)]; rewrite L; cbv beta iota.
    + apply raised_dangling.
    + unfold bind at 1. rewrite for_each_prefix, Hitems. apply raised_dangling.
Qed.

(** A call that returns has read its five inputs on the store it started
    from, and has added the five objects built from them. *)
Lemma biocaddie_json_ok_inv (raw pht : value) (h : heap) out h' :
  biocaddie_json DBGAP raw pht h = (Ok out, h') ->
  exists f, read_inputs h raw pht = Ok f /\
            out = VRef (length h + 1) /\
            h' = h ++ built DBGAP (length h) f.
Proof.
  intros Hrun. pose proof (biocaddie_json_run raw pht h) as Hm.
  destruct (read_inputs h raw pht) as [f|e]; cbn [run_matches] in Hm.
  - exists f. rewrite Hrun in Hm. now inversion Hm.
  - destruct Hm as (e' & ext & Hm & _). congruence.
Qed.

Lemma biocaddie_json_ok (raw pht : value) (h : heap) f :
  read_inputs h raw pht = Ok f ->
  biocaddie_json DBGAP raw pht h
  = (Ok (VRef (length h + 1)), h ++ built DBGAP (length h) f).
Proof.
  intros Hf. pose proof (biocaddie_json_run raw pht h) as Hm.
  now rewrite Hf in Hm.
Qed.

(** Whatever a call gives, it leaves the objects of the store as they were. *)
Lemma biocaddie_json_grows (raw pht : value) (h : heap) r h' :
  biocaddie_json DBGAP raw pht h = (r, h') -> exists ext, h' = h ++ ext.
Proof.
  intros Hrun. pose proof (biocaddie_json_run raw pht h) as Hm.
  rewrite Hrun in Hm.
  destruct (read_inputs h raw pht) as [f|e]; cbn [run_matches] in Hm.
  - inversion Hm. eauto.
  - destruct Hm as (e' & ext & Hm & _). inversion Hm. eauto.
Qed.

End BiocaddieFacts.

(** ** What [read_inputs] reads *)

Lemma path_get_app (h : heap) v (p q : list string) :
  path_get h v (p ++ q)
  = match path_get h v p with
    | Ok x => path_get h x q
    | Raise e => Raise e
    end.
Proof.
  revert v. induction p as [|name p IH]; intros v; cbn [path_get app].
  - reflexivity.
  - destruct (lookup_attr h v name); [apply IH | reflexivity].
Qed.

Lemma path_get_ext_ok (h ext : heap) v (p : list string) x :
  path_get h v p = Ok x -> path_get (h ++ ext) v p = Ok x.
Proof.
  revert v. induction p as [|name p IH]; intros v; cbn [path_get].
  - trivial.
  - destruct (lookup_attr h v name) as [y|e] eqn:E; [|discriminate].
    rewrite (lookup_attr_ext_ok _ ext _ _ _ E). apply IH.
Qed.

Lemma all_str_map (ps : list string) : all_str (map VStr ps) = Ok ps.
Proof.
  induction ps as [|s ps IH]; cbn [map all_str as_str]; [reflexivity|].
  now rewrite IH.
Qed.

Lemma all_str_ok (items : list value) (ps : list string) :
  all_str items = Ok ps -> items = map VStr ps.
Proof.
  revert ps. induction items as [|v rest IH]; intros ps; cbn [all_str].
  - intros [= <-]. reflexivity.
  - destruct v; cbn [as_str]; try discriminate.
    destruct (all_str rest) as [ss|]; [|discriminate].
    intros [= <-]. cbn [map]. now rewrite (IH ss).
Qed.

(** The reads succeed exactly on a document that has the four fields, the
    accession a string, with a list of strings as pht entries. *)
Lemma read_inputs_ok (h : heap) raw acc t d st l ps :
  path_get h raw accession_path = Ok (VStr acc) ->
  path_get h raw title_path = Ok t ->
  path_get h raw description_path = Ok d ->
  path_get h raw study_types_path = Ok st ->
  h !! l = Some (OList (map VStr ps)) ->
  read_inputs h raw (VRef l)
  = Ok {| sf_accession := acc; sf_title := t; sf_description := d;
          sf_study_types := st; sf_phts := ps |}.
Proof.
  unfold accession_path, title_path, description_path, study_types_path.
  unfold read_inputs, study_path. cbn [path_get list_iter].
  intros Ha Ht Hd Hst Hl. rewrite Hl. cbn [fst]. rewrite all_str_map.
  destruct (lookup_attr h raw "GaPExchange") as [gap|]; [|discriminate].
  destruct (lookup_attr h gap "Studies") as [studies|]; [|discriminate].
  destruct (lookup_attr h studies "Study") as [study|]; [|discriminate].
  destruct (lookup_attr h study "accession") as [a|]; [|discriminate].
  injection Ha as ->. cbn [as_str].
  destruct (lookup_attr h study "Configuration") as [config|]; [|discriminate].
  rewrite Ht, Hd.
  destruct (lookup_attr h config "StudyTypes") as [types|]; [|discriminate].
  now rewrite Hst.
Qed.

Lemma read_inputs_inv (h : heap) raw pht f :
  read_inputs h raw pht = Ok f ->
  path_get h raw accession_path = Ok (VStr (sf_accession f)) /\
  path_get h raw title_path = Ok (sf_title f) /\
  path_get h raw description_path = Ok (sf_description f) /\
  path_get h raw study_types_path = Ok (sf_study_types f) /\
  exists l, pht = VRef l /\ h !! l = Some (OList (map VStr (sf_phts f))).
Proof.
  unfold accession_path, title_path, description_path, study_types_path.
  unfold read_inputs, study_path. cbn [path_get].
  destruct (lookup_attr h raw "GaPExchange") as [gap|]; [|discriminate].
  destruct (lookup_attr h gap "Studies") as [studies|]; [|discriminate].
  destruct (lookup_attr h studies "Study") as [study|]; [|discriminate].
  destruct (lookup_attr h study "accession") as [[| | |acc|]|];
    cbn [as_str]; try discriminate.
  destruct (lookup_attr h study "Configuration") as [config|]; [|discriminate].
  destruct (lookup_attr h config "StudyNameEntrez") as [t|]; [|discriminate].
  destruct (lookup_attr h config "StudyNameReportPage") as [d|]; [|discriminate].
  destruct (lookup_attr h config "StudyTypes") as [types|]; [|discriminate].
  destruct (lookup_attr h types "StudyType") as [st|]; [|discriminate].
  unfold list_iter. destruct pht as [| | | |l]; cbn [fst]; try discriminate.
  destruct (h !! l) as [[items| |]|] eqn:El; cbn [fst]; try discriminate.
  destruct (all_str items) as [ps|] eqn:Eps; [|discriminate].
  intros [= <-]. cbn. repeat split. exists l. split; [reflexivity|].
  now rewrite El, (all_str_ok _ _ Eps).
Qed.

Lemma read_inputs_ext (h ext : heap) raw pht f :
  read_inputs h raw pht = Ok f -> read_inputs (h ++ ext) raw pht = Ok f.
Proof.
  intros Hf. destruct (read_inputs_inv _ _ _ _ Hf) as (Ha & Ht & Hd & Hst & l & -> & Hl).
  destruct f as [acc t d st ps]. cbn in *.
  apply read_inputs_ok; try (now apply path_get_ext_ok).
  now apply lookup_app_l_Some.
Qed.

(** ** The biocaddie entry *)

Section BiocaddieClaims.

Variable DBGAP : string.

(** The entry as a caller finds it in the store after a successful call. *)
Lemma built_output (h : heap) (f : study_fields) :
  let h' := h ++ built DBGAP (length h) f in
  let out := VRef (length h + 1) in
  lookup_attr h' out "@type" = Ok (VStr "Study") /\
  lookup_attr h' out "identifierInfo" = Ok (VRef (length h + 3)) /\
  h' !! (length h + 3) = Some (OList [VRef (length h + 2)]) /\
  h' !! (length h + 2)
    = Some (ODict [("identifier", VStr (DBGAP +:+ sf_accession f));
                   ("identifierScheme", VStr "dbGaP")]) /\
  lookup_attr h' out "title" = Ok (sf_title f) /\
  lookup_attr h' out "description" = Ok (sf_description f) /\
  lookup_attr h' out "study_types" = Ok (sf_study_types f) /\
  lookup_attr h' out "resultsIn" = Ok (VRef (length h + 4)) /\
  h' !! (length h + 4) = Some (OList (prefixed DBGAP (sf_phts f))).
Proof.
  cbv zeta. unfold built. rewrite !lookup_attr_fresh, !lookup_app_plus.
  repeat split.
Qed.

(** C2, amended.  On a raw document that has the four consumed fields, with a
    string as accession, and a list of strings as pht entries, the call
    returns an entry whose [@type] is ["Study"], whose [identifierInfo] is a
    list of the one dict [{identifier: DBGAP + accession, identifierScheme:
    "dbGaP"}], whose [title], [description] and [study_types] are the values
    of [StudyNameEntrez], [StudyNameReportPage] and [StudyType] as found, and
    whose [resultsIn] lists the prefixed pht entries; the store before the
    call is a prefix of the store after it. *)
Theorem biocaddie_json_fields (raw : value) (h : heap) acc t d st l ps :
  path_get h raw accession_path = Ok (VStr acc) ->
  path_get h raw title_path = Ok t ->
  path_get h raw description_path = Ok d ->
  path_get h raw study_types_path = Ok st ->
  h !! l = Some (OList (map VStr ps)) ->
  exists out h' info ident results,
    biocaddie_json DBGAP raw (VRef l) h = (Ok out, h') /\
    (exists ext, h' = h ++ ext) /\
    lookup_attr h' out "@type" = Ok (VStr "Study") /\
    lookup_attr h' out "identifierInfo" = Ok (VRef info) /\
    h' !! info = Some (OList [VRef ident]) /\
    h' !! ident = Some (ODict [("identifier", VStr (DBGAP +:+ acc));
                               ("identifierScheme", VStr "dbGaP")]) /\
    lookup_attr h' out "title" = Ok t /\
    lookup_attr h' out "description" = Ok d /\
    lookup_attr h' out "study_types" = Ok st /\
    lookup_attr h' out "resultsIn" = Ok (VRef results) /\
    h' !! results = Some (OList (map (fun s => VStr (DBGAP +:+ s)) ps)).
Proof.
  intros Ha Ht Hd Hst Hl.
  pose proof (read_inputs_ok _ _ _ _ _ _ _ _ Ha Ht Hd Hst Hl) as Hf.
  eexists _, _, _, _, _. split; [exact (biocaddie_json_ok DBGAP _ _ _ _ Hf)|].
  split; [eauto|]. apply built_output.
Qed.

(** C3.  Whenever a call returns an entry, the pht entries were a list of
    strings and [resultsIn] is a list of the same length holding, place by
    place, the prefix followed by the entry; the input list is as it was. *)
Theorem results_in_order (raw pht : value) (h : heap) out h' :
  biocaddie_json DBGAP raw pht h = (Ok out, h') ->
  exists l ps results items,
    pht = VRef l /\
    h !! l = Some (OList (map VStr ps)) /\
    h' !! l = Some (OList (map VStr ps)) /\
    lookup_attr h' out "resultsIn" = Ok (VRef results) /\
    h' !! results = Some (OList items) /\
    items = map (fun s => VStr (DBGAP +:+ s)) ps /\
    length items = length ps /\
    forall i s, ps !! i = Some s -> items !! i = Some (VStr (DBGAP +:+ s)).
Proof.
  intros Hrun.
  destruct (biocaddie_json_ok_inv _ _ _ _ _ _ Hrun) as (f & Hf & -> & ->).
  destruct (read_inputs_inv _ _ _ _ Hf) as (_ & _ & _ & _ & l & -> & Hl).
  destruct (built_output h f) as (_ & _ & _ & _ & _ & _ & _ & Hr & Hitems).
  exists l, (sf_phts f), (length h + 4), (prefixed DBGAP (sf_phts f)).
  split; [reflexivity|]. split; [exact Hl|].
  split; [now apply lookup_app_l_Some|]. split; [exact Hr|].
  split; [exact Hitems|]. split; [reflexivity|]. unfold prefixed.
  split; [apply length_map|].
  intros i s Hi. now rewrite list_lookup_fmap_Some_2 with (x := s).
Qed.

(** C4.  Whenever a call returns an entry, the entry has the six attributes
    [@type], [identifierInfo], [title], [description], [study_types] and
    [resultsIn], in this order, and no other. *)
Theorem output_has_six_keys (raw pht : value) (h : heap) out h' :
  biocaddie_json DBGAP raw pht h = (Ok out, h') ->
  exists d items,
    instance_dict h' out = Some (d, items) /\ keys items = output_keys.
Proof.
  intros Hrun.
  destruct (biocaddie_json_ok_inv _ _ _ _ _ _ Hrun) as (f & _ & -> & ->).
  eexists _, _. split.
  - unfold instance_dict, built. rewrite lookup_app_plus.
    cbn [lookup list_lookup]. now rewrite lookup_app_here.
  - reflexivity.
Qed.

(** *** Two calls *)

Lemma holds_at_app (h objs rest : heap) :
  holds_at (h ++ objs ++ rest) (length h) objs.
Proof.
  intros i o Hi. rewrite lookup_app_plus. now apply lookup_app_l_Some.
Qed.

Lemma reify_str (n : nat) (H : heap) (s : string) : reify n H (VStr s) = TStr s.
Proof. destruct n; reflexivity. Qed.

(** Two entries built from the same inputs are structurally equal, wherever
    they stand in the store. *)
Lemma reify_built (H : heap) (a b : nat) (f : study_fields) :
  holds_at H a (built DBGAP a f) -> holds_at H b (built DBGAP b f) ->
  forall n, reify n H (VRef (a + 1)) = reify n H (VRef (b + 1)).
Proof.
  intros Ha Hb.
  assert (Hinfo : forall n, reify n H (VRef (a + 3)) = reify n H (VRef (b + 3))).
  { intros [|[|n]]; [reflexivity| |]; cbn [reify];
      rewrite (Ha 3 _ eq_refl), (Hb 3 _ eq_refl); cbn [map]; [reflexivity|].
    now rewrite (Ha 2 _ eq_refl), (Hb 2 _ eq_refl). }
  assert (Hres : forall n, reify n H (VRef (a + 4)) = reify n H (VRef (b + 4))).
  { intros [|n]; [reflexivity|]; cbn [reify].
    now rewrite (Ha 4 _ eq_refl), (Hb 4 _ eq_refl). }
  intros [|n]; [reflexivity|]. cbn [reify].
  rewrite (Ha 1 _ eq_refl), (Hb 1 _ eq_refl).
  pose proof (Ha 0 _ eq_refl) as Ha0. pose proof (Hb 0 _ eq_refl) as Hb0.
  rewrite Nat.add_0_r in Ha0, Hb0. rewrite Ha0, Hb0.
  cbn [map fst snd]. now rewrite Hinfo, Hres.
Qed.

(** C5.  A call that returns an entry leaves every object of the store as it
    was, the raw document and the pht list among them; a second call on the
    same two arguments then returns an entry too, changes no object either,
    and the two entries are structurally equal. *)
Theorem biocaddie_json_pure (raw pht : value) (h : heap) out1 h1 :
  biocaddie_json DBGAP raw pht h = (Ok out1, h1) ->
  (exists ext, h1 = h ++ ext) /\
  exists out2 h2,
    biocaddie_json DBGAP raw pht h1 = (Ok out2, h2) /\
    (exists ext, h2 = h1 ++ ext) /\
    forall n, reify n h2 out1 = reify n h2 out2.
Proof.
  intros Hrun.
  destruct (biocaddie_json_ok_inv _ _ _ _ _ _ Hrun) as (f & Hf & -> & ->).
  split; [eauto|].
  pose proof (read_inputs_ext _ (built DBGAP (length h) f) _ _ _ Hf) as Hf1.
  eexists _, _. split; [exact (biocaddie_json_ok DBGAP _ _ _ _ Hf1)|].
  split; [eauto|]. apply (reify_built _ _ _ f).
  - rewrite <- app_assoc. apply holds_at_app.
  - rewrite <- (app_nil_r (built DBGAP (length (h ++ _)) f)) at 1.
    apply holds_at_app.
Qed.

(** *** A missing field *)

(** A dangling reference is dangling for every attribute name. *)
Lemma lookup_attr_dangling (h : heap) v n1 n2 :
  lookup_attr h v n1 = Raise Unmodelled -> lookup_attr h v n2 = Raise Unmodelled.
Proof.
  unfold lookup_attr. destruct v as [| | | |l]; try discriminate.
  destruct (h !! l) as [[items|items|cls d]|]; try discriminate; [|trivial].
  destruct (h !! d) as [[items|items|cls' d']|]; try discriminate; trivial.
  destruct (dict_get items n1); discriminate.
Qed.

Ltac absent_solve :=
  solve [ eexists; split; [reflexivity|]; split;
          [ first [left; reflexivity | right; eauto]
          | first [ solve [intros _; eauto]
                  | let Hs := fresh in
                    intros Hs; destruct (Hs _ eq_refl) as [? ?]; discriminate ] ] ].

Ltac absent_loop :=
  cbv beta iota in *; simplify_eq;
  first
    [ absent_solve
    | match goal with
      | E : lookup_attr ?h ?v ?n = Raise ?e |- _ =>
          is_var e; destruct (lookup_attr_raise _ _ _ _ E) as [->| ->]
      | E : lookup_attr ?h ?v ?n = Raise Unmodelled,
        H : context [lookup_attr ?h ?v ?n2] |- _ =>
          lazymatch n2 with n => fail | _ => idtac end;
          rewrite (lookup_attr_dangling h v n n2 E) in H
      | |- context [lookup_attr ?h ?v ?n] =>
          destruct (lookup_attr h v n) eqn:?
      | |- context [as_str ?a] => destruct a; cbn [as_str] in *
      end; absent_loop ].

(** When a consumed field is absent the reads stop at an [AttributeError],
    unless they met an accession that is no string before. *)
Lemma read_inputs_absent (h : heap) raw pht path name :
  In path consumed_paths ->
  path_get h raw path = Raise (AttributeError name) ->
  exists e, read_inputs h raw pht = Raise e /\
    (e = TypeError \/ exists n, e = AttributeError n) /\
    ((forall x, path_get h raw accession_path = Ok x -> exists a, x = VStr a) ->
     exists n, e = AttributeError n).
Proof.
  unfold consumed_paths, read_inputs, study_path.
  intros [<-|[<-|[<-|[<-|[]]]]];
    unfold accession_path, title_path, description_path, study_types_path;
    cbn [path_get]; intros H; absent_loop.
Qed.

(** An accession that is read and is no string stops the reads at the
    [TypeError] of the concatenation. *)
Lemma read_inputs_non_string (h : heap) raw pht x :
  path_get h raw accession_path = Ok x -> (forall a, x <> VStr a) ->
  read_inputs h raw pht = Raise TypeError.
Proof.
  intros Hx Hns. revert Hx.
  unfold accession_path, read_inputs, study_path. cbn [path_get].
  destruct (lookup_attr h raw "GaPExchange") as [gap|]; [|discriminate].
  destruct (lookup_attr h gap "Studies") as [studies|]; [|discriminate].
  destruct (lookup_attr h studies "Study") as [study|]; [|discriminate].
  destruct (lookup_attr h study "accession") as [acc|]; [|discriminate].
  intros [= ->]. destruct x; cbn [as_str]; try reflexivity.
  now destruct (Hns s).
Qed.

(** C6, amended.  When one of the four consumed fields is absent the call
    raises and returns no entry, and leaves the objects of the store as they
    were.  The error is an [AttributeError] whenever the accession is absent
    or a string, and it is the [TypeError] of the concatenation whenever the
    accession is there and is no string; it is never anything else. *)
Theorem missing_field_raises (raw pht : value) (h : heap) path name :
  In path consumed_paths ->
  path_get h raw path = Raise (AttributeError name) ->
  exists e h',
    biocaddie_json DBGAP raw pht h = (Raise e, h') /\
    (exists ext, h' = h ++ ext) /\
    (e = TypeError \/ exists n, e = AttributeError n) /\
    ((forall x, path_get h raw accession_path = Ok x -> exists a, x = VStr a) ->
     exists n, e = AttributeError n) /\
    (forall x, path_get h raw accession_path = Ok x ->
               (forall a, x <> VStr a) -> e = TypeError).
Proof.
  intros Hin Habs.
  destruct (read_inputs_absent h raw pht path name Hin Habs)
    as (e & Hread & Hkind & Hattr).
  pose proof (biocaddie_json_run DBGAP raw pht h) as Hm.
  rewrite Hread in Hm. destruct Hm as (e' & ext & Hrun & He).
  assert (e' = e) as ->.
  { apply He. destruct Hkind as [->|[n ->]]; discriminate. }
  exists e, (h ++ ext). split; [exact Hrun|]. split; [eauto|].
  split; [exact Hkind|]. split; [exact Hattr|].
  intros x Hx Hns.
  pose proof (read_inputs_non_string h raw pht x Hx Hns) as Hty. congruence.
Qed.

End BiocaddieClaims.

(** ** The scenarios *)

(** The scenario of the specification, with [sample_prefix] for [DBGAP]. *)
Lemma biocaddie_json_example :
  exists out h' info ident results,
    biocaddie_json sample_prefix example_raw example_phts example_store
    = (Ok out, h') /\
    lookup_attr h' out "@type" = Ok (VStr "Study") /\
    lookup_attr h' out "identifierInfo" = Ok (VRef info) /\
    h' !! info = Some (OList [VRef ident]) /\
    h' !! ident = Some (ODict [("identifier", VStr "dbgap:phs000123.v4.p5");
                               ("identifierScheme", VStr "dbGaP")]) /\
    lookup_attr h' out "title" = Ok (VStr "Example Study") /\
    lookup_attr h' out "description" = Ok (VStr "An example.") /\
    lookup_attr h' out "study_types" = Ok (VRef 12) /\
    h' !! 12 = Some (OList [VStr "Case Set"]) /\
    lookup_attr h' out "resultsIn" = Ok (VRef results) /\
    h' !! results = Some (OList [VStr "dbgap:pht000111"; VStr "dbgap:pht000112"]).
Proof.
  destruct (biocaddie_json_fields sample_prefix example_raw example_store
              "phs000123.v4.p5" (VStr "Example Study") (VStr "An example.")
              (VRef 12) 13 ["pht000111"; "pht000112"]
              eq_refl eq_refl eq_refl eq_refl eq_refl)
    as (out & h' & info & ident & results & Hrun & [ext ->] & H).
  exists out, (example_store ++ ext), info, ident, results.
  split; [exact Hrun|]. intuition.
Defined.

(** C2, as the specification has it, fails: a document with the four fields
    whose accession is a JSON number makes the call raise [TypeError]. *)
Lemma numeric_accession_raises :
  path_get numeric_accession_store example_raw accession_path = Ok (VInt 5) /\
  path_get numeric_accession_store example_raw title_path
    = Ok (VStr "Example Study") /\
  path_get numeric_accession_store example_raw description_path
    = Ok (VStr "An example.") /\
  path_get numeric_accession_store example_raw study_types_path = Ok (VRef 12) /\
  numeric_accession_store !! 13
    = Some (OList (map VStr ["pht000111"; "pht000112"])) /\
  fst (biocaddie_json sample_prefix example_raw example_phts
         numeric_accession_store) = Raise TypeError.
Proof. repeat split. Qed.

Lemma results_in_order_example :
  exists out h' results,
    biocaddie_json sample_prefix example_raw example_phts example_store
    = (Ok out, h') /\
    lookup_attr h' out "resultsIn" = Ok (VRef results) /\
    h' !! results = Some (OList [VStr "dbgap:pht000111"; VStr "dbgap:pht000112"]).
Proof.
  destruct (results_in_order sample_prefix example_raw example_phts
              example_store (VRef 15)
              (snd (biocaddie_json sample_prefix example_raw example_phts
                      example_store))
              ltac:(vm_compute; reflexivity))
    as (l & ps & results & items & Hl & Hps & _ & Hr & Hitems & -> & _).
  injection Hl as <-. injection Hps as Hps.
  assert (ps = ["pht000111"; "pht000112"]) as ->.
  { destruct ps as [|p1 [|p2 [|p3 ps]]]; try discriminate.
    now injection Hps as <- <-. }
  eexists _, _, results. split; [vm_compute; reflexivity|]. split; assumption.
Defined.

Lemma output_has_six_keys_example :
  exists out h' d items,
    biocaddie_json sample_prefix example_raw example_phts example_store
    = (Ok out, h') /\
    instance_dict h' out = Some (d, items) /\
    keys items = ["@type"; "identifierInfo"; "title"; "description";
                  "study_types"; "resultsIn"].
Proof.
  destruct (output_has_six_keys sample_prefix example_raw example_phts
              example_store (VRef 15)
              (snd (biocaddie_json sample_prefix example_raw example_phts
                      example_store))
              ltac:(vm_compute; reflexivity))
    as (d & items & Hd & Hk).
  eexists _, _, d, items. split; [vm_compute; reflexivity|]. split; assumption.
Defined.

Lemma biocaddie_json_pure_example :
  exists out1 h1 out2 h2,
    biocaddie_json sample_prefix example_raw example_phts example_store
    = (Ok out1, h1) /\
    biocaddie_json sample_prefix example_raw example_phts h1 = (Ok out2, h2) /\
    take (length example_store) h2 = example_store /\
    forall n, reify n h2 out1 = reify n h2 out2.
Proof.
  destruct (biocaddie_json_pure sample_prefix example_raw example_phts
              example_store (VRef 15)
              (snd (biocaddie_json sample_prefix example_raw example_phts
                      example_store))
              ltac:(vm_compute; reflexivity))
    as ([ext1 E1] & out2 & h2 & Hrun2 & [ext2 ->] & Heq).
  eexists _, _, out2, _. split; [vm_compute; reflexivity|].
  split; [exact Hrun2|]. split; [|exact Heq].
  rewrite E1, <- app_assoc. now rewrite take_app_length.
Defined.

(** The example document without its [StudyNameEntrez]: the call raises the
    [AttributeError] of that name. *)
Lemma missing_field_example :
  exists h',
    biocaddie_json sample_prefix example_raw example_phts untitled_store
    = (Raise (AttributeError "StudyNameEntrez"), h').
Proof.
  destruct (missing_field_raises sample_prefix example_raw example_phts
              untitled_store title_path "StudyNameEntrez"
              ltac:(simpl; auto) eq_refl)
    as (e & h' & Hrun & _ & _ & _).
  exists h'. rewrite Hrun. f_equal.
  vm_compute in Hrun. now injection Hrun as <- _.
Defined.

(** C6, as the specification has it, fails: with a JSON number as accession
    and [StudyNameEntrez] absent, the call raises [TypeError] before it reads
    the absent field. *)
Lemma missing_title_type_error :
  path_get numeric_untitled_store example_raw title_path
    = Raise (AttributeError "StudyNameEntrez") /\
  fst (biocaddie_json sample_prefix example_raw example_phts
         numeric_untitled_store) = Raise TypeError.
Proof. split; reflexivity. Qed.

(** * Further facts *)

(** ** When the mapping returns, and what it raises *)

Lemma all_str_non_str (items : list value) (i : nat) (v : value) :
  items !! i = Some v -> (forall s, v <> VStr s) ->
  all_str items = Raise TypeError.
Proof.
  revert i. induction items as [|w rest IH]; intros i Hi Hv; [discriminate|].
  cbn [all_str]. destruct i as [|i]; cbn in Hi.
  - injection Hi as ->. destruct v; cbn [as_str]; try reflexivity.
    now destruct (Hv s).
  - destruct w; cbn [as_str]; try reflexivity.
    now rewrite (IH i Hi Hv).
Qed.

Section BiocaddieOutcomes.

Variable DBGAP : string.

(** With a list as pht entries, the call returns an entry exactly when the
    raw document has the four consumed fields with a string as accession and
    every element of the list is a string. *)
Theorem biocaddie_json_returns_iff (raw : value) (h : heap) l items :
  h !! l = Some (OList items) ->
  (exists out h', biocaddie_json DBGAP raw (VRef l) h = (Ok out, h')) <->
  (exists acc t d st ps,
     path_get h raw accession_path = Ok (VStr acc) /\
     path_get h raw title_path = Ok t /\
     path_get h raw description_path = Ok d /\
     path_get h raw study_types_path = Ok st /\
     items = map VStr ps).
Proof.
  intros Hitems. split.
  - intros (out & h' & Hrun).
    destruct (biocaddie_json_ok_inv _ _ _ _ _ _ Hrun) as (f & Hf & _).
    destruct (read_inputs_inv _ _ _ _ Hf)
      as (Ha & Ht & Hd & Hst & l' & [= <-] & Hps).
    exists (sf_accession f), (sf_title f), (sf_description f),
      (sf_study_types f), (sf_phts f).
    rewrite Hitems in Hps. injection Hps as Hps. auto 10.
  - intros (acc & t & d & st & ps & Ha & Ht & Hd & Hst & ->).
    pose proof (read_inputs_ok _ _ _ _ _ _ _ _ Ha Ht Hd Hst Hitems) as Hf.
    eexists _, _. exact (biocaddie_json_ok DBGAP _ _ _ _ Hf).
Qed.

(** An accession that is present and is no string makes the call raise
    [TypeError], whatever the rest of the document and the pht entries are;
    the objects of the store stay as they were. *)
Theorem non_string_accession_raises (raw pht : value) (h : heap) x :
  path_get h raw accession_path = Ok x -> (forall a, x <> VStr a) ->
  exists h', biocaddie_json DBGAP raw pht h = (Raise TypeError, h') /\
             exists ext, h' = h ++ ext.
Proof.
  intros Hx Hns.
  assert (Hread : read_inputs h raw pht = Raise TypeError).
  { revert Hx. unfold accession_path, read_inputs, study_path. cbn [path_get].
    destruct (lookup_attr h raw "GaPExchange") as [gap|]; [|discriminate].
    destruct (lookup_attr h gap "Studies") as [studies|]; [|discriminate].
    destruct (lookup_attr h studies "Study") as [study|]; [|discriminate].
    destruct (lookup_attr h study "accession") as [acc|]; [|discriminate].
    intros [= ->]. destruct x; cbn [as_str]; try reflexivity.
    now destruct (Hns s). }
  pose proof (biocaddie_json_run DBGAP raw pht h) as Hm.
  rewrite Hread in Hm. destruct Hm as (e' & ext & Hrun & He).
  rewrite (He ltac:(discriminate)) in Hrun. eauto.
Qed.

(** On a document with the four fields and a string accession, a pht list
    with an element that is no string makes the call raise [TypeError]. *)
Theorem non_string_pht_raises (raw : value) (h : heap) acc t d st l items i v :
  path_get h raw accession_path = Ok (VStr acc) ->
  path_get h raw title_path = Ok t ->
  path_get h raw description_path = Ok d ->
  path_get h raw study_types_path = Ok st ->
  h !! l = Some (OList items) ->
  items !! i = Some v -> (forall s, v <> VStr s) ->
  exists h', biocaddie_json DBGAP raw (VRef l) h = (Raise TypeError, h') /\
             exists ext, h' = h ++ ext.
Proof.
  intros Ha Ht Hd Hst Hl Hi Hv.
  assert (Hread : read_inputs h raw (VRef l) = Raise TypeError).
  { revert Ha Ht Hd Hst.
    unfold accession_path, title_path, description_path, study_types_path.
    unfold read_inputs, study_path. cbn [path_get list_iter]. rewrite Hl.
    cbn [fst]. rewrite (all_str_non_str _ _ _ Hi Hv).
    destruct (lookup_attr h raw "GaPExchange") as [gap|]; [|discriminate].
    destruct (lookup_attr h gap "Studies") as [studies|]; [|discriminate].
    destruct (lookup_attr h studies "Study") as [study|]; [|discriminate].
    destruct (lookup_attr h study "accession") as [a|]; [|discriminate].
    intros [= ->]. cbn [as_str].
    destruct (lookup_attr h study "Configuration") as [config|]; [|discriminate].
    intros -> ->.
    destruct (lookup_attr h config "StudyTypes") as [types|]; [|discriminate].
    now intros ->. }
  pose proof (biocaddie_json_run DBGAP raw (VRef l) h) as Hm.
  rewrite Hread in Hm. destruct Hm as (e' & ext & Hrun & He).
  rewrite (He ltac:(discriminate)) in Hrun. eauto.
Qed.

(** When [raw_json.GaPExchange.Studies.Study] cannot be read, the call raises
    the error of that read before it creates anything: the store is the one
    it started from. *)
Theorem missing_study_leaves_store (raw pht : value) (h : heap) e :
  path_get h raw study_path = Raise e ->
  biocaddie_json DBGAP raw pht h = (Raise e, h).
Proof.
  unfold study_path, biocaddie_json. cbn [path_get].
  unfold bind at 1, getattr at 1.
  destruct (lookup_attr h raw "GaPExchange") as [gap|e1]; [|now intros [= ->]].
  unfold bind at 1, getattr at 1.
  destruct (lookup_attr h gap "Studies") as [studies|e1]; [|now intros [= ->]].
  unfold bind at 1, getattr at 1.
  destruct (lookup_attr h studies "Study") as [study|e1]; [|now intros [= ->]].
  discriminate.
Qed.

(** With the study and a string accession read, the error names the first
    absent attribute in the order of the source: the title's, then the
    description's, then the study types'. *)
Theorem errors_in_source_order (raw pht : value) (h : heap) study acc n :
  path_get h raw study_path = Ok study ->
  lookup_attr h study "accession" = Ok (VStr acc) ->
  path_get h study ["Configuration"; "StudyNameEntrez"]
    = Raise (AttributeError n) \/
  (exists t,
     path_get h study ["Configuration"; "StudyNameEntrez"] = Ok t /\
     path_get h study ["Configuration"; "StudyNameReportPage"]
       = Raise (AttributeError n)) \/
  (exists t d,
     path_get h study ["Configuration"; "StudyNameEntrez"] = Ok t /\
     path_get h study ["Configuration"; "StudyNameReportPage"] = Ok d /\
     path_get h study ["Configuration"; "StudyTypes"; "StudyType"]
       = Raise (AttributeError n)) ->
  exists h', biocaddie_json DBGAP raw pht h = (Raise (AttributeError n), h') /\
             exists ext, h' = h ++ ext.
Proof.
  intros Hstudy Hacc Hfirst.
  assert (Hread : read_inputs h raw pht = Raise (AttributeError n)).
  { unfold read_inputs. rewrite Hstudy, Hacc. cbn [as_str].
    destruct Hfirst as [Ht|[(t & Ht & Hd)|(t & d & Ht & Hd & Hst)]].
    - now rewrite Ht.
    - now rewrite Ht, Hd.
    - now rewrite Ht, Hd, Hst. }
  pose proof (biocaddie_json_run DBGAP raw pht h) as Hm.
  rewrite Hread in Hm. destruct Hm as (e' & ext & Hrun & He).
  rewrite (He ltac:(discriminate)) in Hrun. eauto.
Qed.

End BiocaddieOutcomes.

(** ** What the entry shares with its inputs *)

(** Writing a list leaves every attribute read as it was: reads go through
    instances and their dicts. *)
Lemma lookup_attr_insert_list (H : heap) l xs ys v name :
  H !! l = Some (OList xs) ->
  lookup_attr (<[l := OList ys]> H) v name = lookup_attr H v name.
Proof.
  intros Hl. pose proof (lookup_lt_Some _ _ _ Hl) as Hlt.
  unfold lookup_attr. destruct v as [| | | |l1]; try reflexivity.
  destruct (decide (l = l1)) as [<-|Hne].
  - now rewrite list_lookup_insert_eq, Hl by exact Hlt.
  - rewrite list_lookup_insert_ne by exact Hne.
    destruct (H !! l1) as [[items|items|cls d]|]; try reflexivity.
    destruct (decide (l = d)) as [<-|Hd].
    + now rewrite list_lookup_insert_eq, Hl by exact Hlt.
    + now rewrite list_lookup_insert_ne by exact Hd.
Qed.

Lemma path_get_insert_list (H : heap) l xs ys v (p : list string) :
  H !! l = Some (OList xs) ->
  path_get (<[l := OList ys]> H) v p = path_get H v p.
Proof.
  intros Hl. revert v. induction p as [|name p IH]; intros v; cbn [path_get].
  - reflexivity.
  - rewrite (lookup_attr_insert_list _ _ _ _ _ _ Hl).
    destruct (lookup_attr H v name); [apply IH | reflexivity].
Qed.

Lemma list_append_list (H : heap) l items x :
  H !! l = Some (OList items) ->
  list_append (VRef l) x H = (Ok tt, <[l := OList (items ++ [x])]> H).
Proof. intros Hl. unfold list_append. now rewrite Hl. Qed.

Section BiocaddieSharing.

Variable DBGAP : string.

(** The entry's [study_types] is the raw document's own [StudyType] object,
    no copy: when it is a list, an element appended through the entry is an
    element of the raw document's list. *)
Theorem study_types_is_shared (raw pht : value) (h : heap) out h' l items x :
  biocaddie_json DBGAP raw pht h = (Ok out, h') ->
  path_get h raw study_types_path = Ok (VRef l) ->
  h !! l = Some (OList items) ->
  exists st h'',
    lookup_attr h' out "study_types" = Ok st /\
    list_append st x h' = (Ok tt, h'') /\
    path_get h'' raw study_types_path = Ok (VRef l) /\
    h'' !! l = Some (OList (items ++ [x])).
Proof.
  intros Hrun Hst Hl.
  destruct (biocaddie_json_ok_inv _ _ _ _ _ _ Hrun) as (f & Hf & -> & ->).
  destruct (read_inputs_inv _ _ _ _ Hf) as (_ & _ & _ & Hst' & _).
  rewrite Hst in Hst'. injection Hst' as Hst'.
  destruct (built_output DBGAP h f) as (_ & _ & _ & _ & _ & _ & Hout & _).
  rewrite <- Hst' in Hout.
  pose proof (lookup_app_l_Some _ (built DBGAP (length h) f) _ _ Hl) as Hl'.
  eexists _, _. split; [exact Hout|].
  split; [exact (list_append_list _ _ _ x Hl')|]. split.
  - rewrite (path_get_insert_list _ _ _ _ _ _ Hl').
    now apply path_get_ext_ok.
  - apply list_lookup_insert_eq. exact (lookup_lt_Some _ _ _ Hl').
Qed.

(** The entry, its [identifierInfo] list and its [resultsIn] list are objects
    the store did not have before the call; an element appended to
    [resultsIn] changes no object the store had, the pht list included. *)
Theorem output_containers_are_new (raw pht : value) (h : heap) out h' x :
  biocaddie_json DBGAP raw pht h = (Ok out, h') ->
  exists entry info results h'',
    out = VRef entry /\ h !! entry = None /\
    lookup_attr h' out "identifierInfo" = Ok (VRef info) /\ h !! info = None /\
    lookup_attr h' out "resultsIn" = Ok (VRef results) /\ h !! results = None /\
    list_append (VRef results) x h' = (Ok tt, h'') /\
    take (length h) h'' = h.
Proof.
  intros Hrun.
  destruct (biocaddie_json_ok_inv _ _ _ _ _ _ Hrun) as (f & Hf & -> & ->).
  destruct (built_output DBGAP h f)
    as (_ & Hinfo & _ & _ & _ & _ & _ & Hres & Hitems).
  eexists _, _, _, _. split; [reflexivity|].
  split; [apply lookup_ge_None; lia|]. split; [exact Hinfo|].
  split; [apply lookup_ge_None; lia|]. split; [exact Hres|].
  split; [apply lookup_ge_None; lia|].
  split; [exact (list_append_list _ _ _ x Hitems)|].
  rewrite insert_app_r. now rewrite take_app_length.
Qed.

End BiocaddieSharing.

(** ** Identifiers read back *)

Lemma is_digit_char (d : Z) : (0 <= d < 10)%Z -> is_digit (digit_char d) = true.
Proof.
  intros Hd. unfold is_digit, digit_char. rewrite nat_ascii_embedding by lia.
  apply andb_true_intro. split; apply Nat.leb_le; lia.
Qed.

Lemma digits_only_app (s t : string) :
  digits_only (s +:+ t) = digits_only s && digits_only t.
Proof.
  induction s as [|c s IH]; [reflexivity|].
  rewrite append_cons. cbn [digits_only]. now rewrite IH, andb_assoc.
Qed.

Lemma digits_only_decimal_go (fuel : nat) (n : Z) :
  (0 <= n)%Z -> digits_only (decimal_go fuel n) = true.
Proof.
  revert n. induction fuel as [|f IH]; intros n Hn; cbn [decimal_go].
  - reflexivity.
  - destruct (Z.ltb_spec n 10) as [Hlt|Hge].
    + cbn [digits_only]. now rewrite is_digit_char by lia.
    + rewrite digits_only_app, IH by (apply Z.div_pos; lia).
      cbn [digits_only].
      now rewrite is_digit_char by (apply Z.mod_pos_bound; lia).
Qed.

Lemma digits_only_decimal (n : Z) : (0 <= n)%Z -> digits_only (decimal n) = true.
Proof. apply digits_only_decimal_go. Qed.

Lemma digits_only_zeros (k : nat) : digits_only (pad "0" k) = true.
Proof. induction k as [|k IH]; [reflexivity | exact IH]. Qed.

Lemma digits_only_zero_pad (w : nat) (n : Z) :
  (0 <= n)%Z -> digits_only (zero_pad w (decimal n)) = true.
Proof.
  intros Hn. unfold zero_pad.
  now rewrite digits_only_app, digits_only_zeros, digits_only_decimal.
Qed.

Lemma decimal_value_go_zeros (k : nat) : decimal_value_go 0 (pad "0" k) = 0%Z.
Proof. induction k as [|k IH]; [reflexivity | exact IH]. Qed.

(** Leading zeros do not change the number. *)
Lemma decimal_value_zero_pad (w : nat) (n : Z) :
  (0 <= n)%Z -> decimal_value (zero_pad w (decimal n)) = n.
Proof.
  intros Hn. unfold decimal_value, zero_pad.
  rewrite decimal_value_go_app, decimal_value_go_zeros.
  now apply decimal_value_decimal.
Qed.

Lemma digits_only_minus (s : string) : digits_only ("-" +:+ s) = false.
Proof. reflexivity. Qed.

Lemma format_int_negative (n : Z) :
  (n < 0)%Z -> format_int true 6 n = "-" +:+ zero_pad 5 (decimal (- n)).
Proof.
  intros Hn. unfold format_int, zero_pad.
  destruct (Z.ltb_spec n 0) as [_|?]; [|lia].
  now rewrite Z.abs_neq by lia.
Qed.

(** The study id of a constructed object reads back as the integer it was
    built from when that integer is not negative; a negative one gives a
    string that is no study id. *)
Theorem studyid_reads_back (id_ v p : Z) (h : heap) :
  exists self h' s,
    StudyIdentifier.new id_ v p h = (Ok self, h') /\
    lookup_attr h' self "studyid" = Ok (VStr s) /\
    parse_studyid s = if (id_ <? 0)%Z then None else Some id_.
Proof.
  eexists _, _, _. split; [apply new_run|].
  destruct (new_attrs id_ v p h) as (H1 & _). split; [exact H1|].
  unfold studyid_of. destruct (Z.ltb_spec id_ 0) as [Hneg|Hpos].
  - now rewrite format_int_negative by exact Hneg.
  - rewrite format_int_nonneg by exact Hpos.
    change (parse_studyid ("phs" +:+ zero_pad 6 (decimal id_)))
      with (if digits_only (zero_pad 6 (decimal id_))
            then Some (decimal_value (zero_pad 6 (decimal id_))) else None).
    now rewrite digits_only_zero_pad, decimal_value_zero_pad.
Qed.

(** For a negative id the sign takes one of the six places: the study id is
    ["phs-"] and the magnitude zero-padded to five digits. *)
Theorem negative_studyid (id_ v p : Z) (h : heap) :
  (id_ < 0)%Z ->
  exists self h',
    StudyIdentifier.new id_ v p h = (Ok self, h') /\
    lookup_attr h' self "studyid"
    = Ok (VStr ("phs-" +:+ zero_pad 5 (decimal (- id_)))).
Proof.
  intros Hneg. eexists _, _. split; [apply new_run|].
  destruct (new_attrs id_ v p h) as (H1 & _). rewrite H1.
  unfold studyid_of. now rewrite format_int_negative by exact Hneg.
Qed.

Lemma negative_studyid_example :
  exists self h',
    StudyIdentifier.new (-5) 4 5 [] = (Ok self, h') /\
    lookup_attr h' self "studyid" = Ok (VStr "phs-00005").
Proof.
  destruct (negative_studyid (-5) 4 5 [] ltac:(lia)) as (self & h' & Hrun & H1).
  exists self, h'. split; assumption.
Defined.

(** A string of digits ends at the first dot. *)
Lemma split_at_dot (s s' r r' : string) :
  digits_only s = true -> digits_only s' = true ->
  s +:+ String "." r = s' +:+ String "." r' -> s = s' /\ r = r'.
Proof.
  revert s'. induction s as [|c s IH]; intros [|c' s'] Hs Hs' Heq.
  - now injection Heq.
  - rewrite append_cons in Heq. injection Heq as <- _.
    cbn in Hs'. discriminate.
  - rewrite append_cons in Heq. injection Heq as -> _.
    cbn in Hs. discriminate.
  - rewrite !append_cons in Heq. injection Heq as <- Heq.
    cbn [digits_only] in Hs, Hs'.
    apply andb_true_iff in Hs as [_ Hs]. apply andb_true_iff in Hs' as [_ Hs'].
    destruct (IH _ Hs Hs' Heq) as [-> ->]. now split.
Qed.

Lemma fullid_of_inj (id_ v p id' v' p' : Z) :
  (0 <= id_)%Z -> (0 <= v)%Z -> (0 <= p)%Z ->
  (0 <= id')%Z -> (0 <= v')%Z -> (0 <= p')%Z ->
  fullid_of id_ v p = fullid_of id' v' p' -> id_ = id' /\ v = v' /\ p = p'.
Proof.
  intros Hid Hv Hp Hid' Hv' Hp'.
  unfold fullid_of, versionedid_of, studyid_of, str_int.
  repeat match goal with
         | |- context [(?n <? 0)%Z] =>
             destruct (Z.ltb_spec n 0) as [?|_]; [lia|]
         end.
  rewrite !format_int_nonneg by assumption. rewrite !append_assoc.
  intros Heq. injection Heq as Heq.
  apply split_at_dot in Heq as [Hids Heq];
    [|now apply digits_only_zero_pad..].
  injection Heq as Heq.
  apply split_at_dot in Heq as [Hvs Heq];
    [|now apply digits_only_decimal..].
  injection Heq as Hps.
  apply (f_equal decimal_value) in Hids, Hvs, Hps.
  rewrite !decimal_value_zero_pad in Hids by assumption.
  rewrite !decimal_value_decimal in Hvs, Hps by assumption.
  auto.
Qed.

(** Identifiers are unambiguous: two objects constructed from non-negative
    integers have the same [fullid] only when they were constructed from the
    same three integers. *)
Theorem fullid_injective (id_ v p id' v' p' : Z) (h h0 : heap) a ha b hb s :
  (0 <= id_)%Z -> (0 <= v)%Z -> (0 <= p)%Z ->
  (0 <= id')%Z -> (0 <= v')%Z -> (0 <= p')%Z ->
  StudyIdentifier.new id_ v p h = (Ok a, ha) ->
  StudyIdentifier.new id' v' p' h0 = (Ok b, hb) ->
  lookup_attr ha a "fullid" = Ok s ->
  lookup_attr hb b "fullid" = Ok s ->
  id_ = id' /\ v = v' /\ p = p'.
Proof.
  intros Hid Hv Hp Hid' Hv' Hp' Ha Hb Hsa Hsb.
  rewrite new_run in Ha, Hb. injection Ha as <- <-. injection Hb as <- <-.
  destruct (new_attrs id_ v p h) as (_ & _ & H3).
  destruct (new_attrs id' v' p' h0) as (_ & _ & H3').
  rewrite H3 in Hsa. rewrite H3' in Hsb.
  assert (Heq : fullid_of id_ v p = fullid_of id' v' p') by congruence.
  now apply fullid_of_inj.
Qed.

Lemma fullid_injective_example :
  (123 = 123 /\ 4 = 4 /\ 5 = 5)%Z.
Proof.
  exact (fullid_injective 123 4 5 123 4 5 [] [] _ _ _ _ _
           ltac:(lia) ltac:(lia) ltac:(lia) ltac:(lia) ltac:(lia) ltac:(lia)
           eq_refl eq_refl eq_refl eq_refl).
Defined.

(** ** Two identifiers *)

(** Two objects constructed from the same integers are two objects with
    equal strings: a write of one of the three names through the mapping of
    the first changes the first and leaves the three strings of the second
    as they were. *)
Theorem identifiers_are_independent (id_ v p : Z) (h : heap) k x :
  In k attribute_names ->
  exists a h1 b h2 d h3,
    StudyIdentifier.new id_ v p h = (Ok a, h1) /\
    StudyIdentifier.new id_ v p h1 = (Ok b, h2) /\
    a <> b /\
    (forall name, In name attribute_names ->
       lookup_attr h2 a name = lookup_attr h2 b name) /\
    StudyIdentifier.identifiers a h2 = (Ok (VRef d), h2) /\
    dict_setitem d k x h2 = (Ok tt, h3) /\
    lookup_attr h3 a k = Ok x /\
    (forall name, In name attribute_names ->
       lookup_attr h3 b name = lookup_attr h2 b name).
Proof.
  intros _.
  set (D := ODict (identifier_dict id_ v p)).
  assert (Hn1 : length (h ++ [D; OInstance "StudyIdentifier" (length h)])
                = length h + 2)
    by now rewrite length_app.
  exists (VRef (length h + 1)),
    (h ++ [D; OInstance "StudyIdentifier" (length h)]),
    (VRef (length h + 2 + 1)),
    (h ++ [D; OInstance "StudyIdentifier" (length h);
           D; OInstance "StudyIdentifier" (length h + 2)]),
    (length h),
    (h ++ [ODict (dict_set (identifier_dict id_ v p) k x);
           OInstance "StudyIdentifier" (length h);
           D; OInstance "StudyIdentifier" (length h + 2)]).
  assert (Hb : forall o name,
    lookup_attr (h ++ [o; OInstance "StudyIdentifier" (length h);
                       D; OInstance "StudyIdentifier" (length h + 2)])
      (VRef (length h + 2 + 1)) name
    = match dict_get (identifier_dict id_ v p) name with
      | Some y => Ok y
      | None => Raise (AttributeError name)
      end).
  { intros o name.
    apply lookup_attr_held with (cls := "StudyIdentifier") (d := length h + 2).
    - replace (length h + 2 + 1) with (length h + 3) by lia.
      now rewrite lookup_app_plus.
    - now rewrite lookup_app_plus. }
  split; [apply new_run|]. split.
  { rewrite new_run, Hn1, <- app_assoc. reflexivity. }
  split; [intros [= Heq]; lia|]. split.
  { intros name _. rewrite Hb. apply lookup_attr_fresh. }
  split; [apply identifiers_fresh|]. split; [apply dict_setitem_fresh|]. split.
  { rewrite lookup_attr_fresh. now rewrite dict_get_set_same. }
  intros name _. now rewrite !Hb.
Qed.

Lemma identifiers_are_independent_example :
  exists a h1 b h2 d h3,
    StudyIdentifier.new 123 4 5 [] = (Ok a, h1) /\
    StudyIdentifier.new 123 4 5 h1 = (Ok b, h2) /\
    a <> b /\
    StudyIdentifier.identifiers a h2 = (Ok (VRef d), h2) /\
    dict_setitem d "studyid" (VStr "changed") h2 = (Ok tt, h3) /\
    lookup_attr h3 a "studyid" = Ok (VStr "changed") /\
    lookup_attr h3 b "studyid" = lookup_attr h2 b "studyid".
Proof.
  destruct (identifiers_are_independent 123 4 5 [] "studyid" (VStr "changed")
              ltac:(simpl; auto))
    as (a & h1 & b & h2 & d & h3 & Ha & Hb & Hne & _ & Hid & Hset & Hx & Hsame).
  exists a, h1, b, h2, d, h3. repeat split; try assumption.
  apply Hsame. simpl. auto.
Defined.

(** ** Formatting a template with a mapping *)

Section TemplateFacts.

Variable E : Type.

Lemma fprepend_app (s t : string) (r : fres E string) :
  fprepend E s (fprepend E t r) = fprepend E (s +:+ t) r.
Proof. destruct r; cbn [fprepend]; [|reflexivity]. now rewrite append_assoc. Qed.

(** Literal text is copied. *)
Lemma format_map_literal (s rest : string) items :
  no_char "%" s = true ->
  format_map_go E MLiteral (s +:+ rest) items
  = fprepend E s (format_map_go E MLiteral rest items).
Proof.
  induction s as [|c s IH]; intros Hs.
  - change ("" +:+ rest) with rest.
    now destruct (format_map_go E MLiteral rest items).
  - cbn [no_char] in Hs. apply andb_true_iff in Hs as [Hc Hs].
    apply negb_true_iff in Hc. rewrite append_cons. cbn [format_map_go].
    rewrite Hc, (IH Hs). apply (fprepend_app (String c "") s).
Qed.

(** A key is read to its closing parenthesis and looked up there. *)
Lemma format_map_key (key rest acc : string) items :
  no_char "(" key = true -> no_char ")" key = true ->
  format_map_go E (MKey 1 acc) (key +:+ String ")" rest) items
  = match dict_get items (acc +:+ key) with
    | Some v => format_map_go E (MSpec false (Some v) false None) rest items
    | None => FRaise (KeyError (acc +:+ key))
    end.
Proof.
  revert acc. induction key as [|c key IH]; intros acc Ho Hc.
  - change ("" +:+ String ")" rest) with (String ")" rest).
    cbn [format_map_go Ascii.eqb Bool.eqb]. now rewrite append_empty_r.
  - cbn [no_char] in Ho, Hc.
    apply andb_true_iff in Ho as [Ho1 Ho]. apply andb_true_iff in Hc as [Hc1 Hc].
    apply negb_true_iff in Ho1, Hc1.
    rewrite append_cons. cbn [format_map_go]. rewrite Hc1, Ho1.
    rewrite (IH _ Ho Hc). now rewrite append_assoc.
Qed.

Lemma format_map_field (key rest : string) items :
  well_formed (Field key) = true ->
  format_map_go E MLiteral (render_piece (Field key) +:+ rest) items
  = match dict_get items key with
    | None => FRaise (KeyError key)
    | Some v =>
        match str_of v with
        | Ok t => fprepend E t (format_map_go E MLiteral rest items)
        | Raise e => FRaise (PyError e)
        end
    end.
Proof.
  intros Hwf. cbn [well_formed] in Hwf. apply andb_true_iff in Hwf as [Ho Hc].
  unfold render_piece. rewrite !append_assoc.
  change ("%(" +:+ key +:+ ")s" +:+ rest)
    with (String "%" (String "(" (key +:+ String ")" (String "s" rest)))).
  cbn [format_map_go Ascii.eqb Bool.eqb andb].
  rewrite (format_map_key key _ "" items Ho Hc).
  change ("" +:+ key) with key.
  destruct (dict_get items key) as [v|]; [|reflexivity].
  cbn [format_map_go is_digit nat_of_ascii Ascii.eqb Bool.eqb andb].
  reflexivity.
Qed.

(** Formatting a well-formed template with a mapping is substitution: each
    field gives [str] of the value of its key, and the first field whose key
    the mapping lacks raises [KeyError] with that key. *)
Theorem format_map_render (ps : list piece) items :
  forallb well_formed ps = true ->
  format_map_go E MLiteral (render ps) items = substitute E items ps.
Proof.
  induction ps as [|p ps IH]; intros Hwf; [reflexivity|].
  cbn [forallb] in Hwf. apply andb_true_iff in Hwf as [Hp Hps].
  cbn [render substitute]. destruct p as [s|key].
  - cbn [render_piece]. rewrite (format_map_literal _ _ _ Hp). now rewrite IH.
  - rewrite (format_map_field _ _ _ Hp). now rewrite IH.
Qed.

End TemplateFacts.

(** ** get_study_information *)

Section FetchFacts.

Variable E : Type.
Variable STUDY_FTP_SERVER : string.
Variable FileDownloader : string -> heap -> (value + E) * heap.
Variable download_file : value -> string -> heap -> (string + E) * heap.

(** Once the downloader is made, the fetch for a [StudyIdentifier] is
    decided by the substitution of its [__dict__] into the template. *)
Lemma get_study_information_run (ps : list piece) l (h : heap) dl h1 d items :
  forallb well_formed ps = true ->
  FileDownloader STUDY_FTP_SERVER h = (inl dl, h1) ->
  h1 !! l = Some (OInstance "StudyIdentifier" d) ->
  h1 !! d = Some (ODict items) ->
  get_study_information E STUDY_FTP_SERVER (render ps) FileDownloader
    download_file (VRef l) h
  = match substitute E items ps with
    | FRaise e => (FRaise e, h1)
    | FOk path =>
        match download_file dl path h1 with
        | (inl text, h2) => (FOk text, h2)
        | (inr e, h2) => (FRaise (DownloadError e), h2)
        end
    end.
Proof.
  intros Hwf Hdl Hl Hd.
  unfold get_study_information. rewrite Hdl, (identifiers_at _ _ _ Hl).
  unfold pyformat_map. rewrite Hd. now rewrite format_map_render.
Qed.

Lemma substitute_app (items : list (string * value)) (ps qs : list piece) :
  substitute E items (ps ++ qs)
  = match substitute E items ps with
    | FOk s => fprepend E s (substitute E items qs)
    | FRaise e => FRaise e
    end.
Proof.
  induction ps as [|[s|key] ps IH]; cbn [app substitute].
  - now destruct (substitute E items qs).
  - rewrite IH. destruct (substitute E items ps); cbn [fprepend]; [|reflexivity].
    apply fprepend_app.
  - destruct (dict_get items key) as [v|]; [|reflexivity].
    destruct (str_of v); [|reflexivity].
    rewrite IH. destruct (substitute E items ps); cbn [fprepend]; [|reflexivity].
    apply fprepend_app.
Qed.

(** For a [StudyIdentifier], a template with a field whose key its
    [identifiers] mapping lacks raises the [KeyError] of the first such field
    once the downloader is made: nothing is downloaded, whatever
    [download_file] would do. *)
Theorem missing_placeholder_raises (before after : list piece) key
    l (h : heap) dl h1 d items s :
  forallb well_formed (before ++ Field key :: after) = true ->
  FileDownloader STUDY_FTP_SERVER h = (inl dl, h1) ->
  h1 !! l = Some (OInstance "StudyIdentifier" d) ->
  h1 !! d = Some (ODict items) ->
  substitute E items before = FOk s ->
  dict_get items key = None ->
  get_study_information E STUDY_FTP_SERVER
    (render (before ++ Field key :: after)) FileDownloader download_file
    (VRef l) h
  = (FRaise (KeyError key), h1).
Proof.
  intros Hwf Hdl Hl Hd Hbefore Hkey.
  rewrite (get_study_information_run _ _ _ _ _ _ _ Hwf Hdl Hl Hd).
  rewrite substitute_app, Hbefore. cbn [substitute]. now rewrite Hkey.
Qed.

Lemma substitute_identifier (id_ v p : Z) (ps : list piece) :
  forallb identifier_field ps = true ->
  substitute E (identifier_dict id_ v p) ps = FOk (fill id_ v p ps).
Proof.
  induction ps as [|[s|key] ps IH]; intros Hf; [reflexivity| |];
    cbn [forallb] in Hf; apply andb_true_iff in Hf as [Hk Hf];
    cbn [substitute fill fill_piece]; rewrite (IH Hf); [reflexivity|].
  cbn [identifier_field] in Hk. unfold identifier_dict. cbn [dict_get].
  rewrite (String.eqb_sym "studyid"), (String.eqb_sym "versionedid"),
    (String.eqb_sym "fullid").
  destruct (String.eqb key "studyid"); [reflexivity|].
  destruct (String.eqb key "versionedid"); [reflexivity|].
  destruct (String.eqb key "fullid"); [reflexivity|discriminate].
Qed.

(** For an identifier constructed from [id_], [v] and [p], and a downloader
    whose making only adds objects to the store, the fetch asks for the
    template with [%(studyid)s], [%(versionedid)s] and [%(fullid)s] replaced
    by the three strings, and gives back what the download gives: its text,
    or its error. *)
Theorem get_study_information_path (id_ v p : Z) (ps : list piece)
    (h : heap) sid hs dl ext :
  forallb well_formed ps = true ->
  forallb identifier_field ps = true ->
  StudyIdentifier.new id_ v p h = (Ok sid, hs) ->
  FileDownloader STUDY_FTP_SERVER hs = (inl dl, hs ++ ext) ->
  get_study_information E STUDY_FTP_SERVER (render ps) FileDownloader
    download_file sid hs
  = match download_file dl (fill id_ v p ps) (hs ++ ext) with
    | (inl text, h2) => (FOk text, h2)
    | (inr e, h2) => (FRaise (DownloadError e), h2)
    end.
Proof.
  intros Hwf Hf Hnew Hdl. rewrite new_run in Hnew. injection Hnew as <- <-.
  set (hs := h ++ [ODict (identifier_dict id_ v p);
                   OInstance "StudyIdentifier" (length h)]) in *.
  assert (Hl : (hs ++ ext) !! (length h + 1)
               = Some (OInstance "StudyIdentifier" (length h))).
  { unfold hs. rewrite <- app_assoc. now rewrite lookup_app_plus. }
  assert (Hd : (hs ++ ext) !! length h
               = Some (ODict (identifier_dict id_ v p))).
  { unfold hs. rewrite <- app_assoc. now rewrite lookup_app_here. }
  rewrite (get_study_information_run _ _ _ _ _ _ _ Hwf Hdl Hl Hd).
  now rewrite substitute_identifier.
Qed.

End FetchFacts.

Lemma get_study_information_example :
  exists sid hs,
    StudyIdentifier.new 123 4 5 [] = (Ok sid, hs) /\
    get_study_information string "ftp.example.org" (render sample_template)
      echo_downloader echo_download sid hs
    = (FOk "studies/phs000123/phs000123.v4.p5/GapExchange_phs000123.v4.p5.xml",
       hs).
Proof.
  eexists _, _. split; [reflexivity|].
  rewrite (get_study_information_path string "ftp.example.org"
             echo_downloader echo_download 123 4 5 sample_template
             [] _ _ VNone [] eq_refl eq_refl eq_refl eq_refl).
  reflexivity.
Defined.

Lemma missing_placeholder_example :
  exists sid hs,
    StudyIdentifier.new 123 4 5 [] = (Ok sid, hs) /\
    get_study_information string "ftp.example.org"
      (render [Lit "studies/"; Field "studyid"; Lit "/"; Field "release"])
      echo_downloader echo_download sid hs
    = (FRaise (KeyError "release"), hs).
Proof.
  eexists _, _. split; [reflexivity|].
  exact (missing_placeholder_raises string "ftp.example.org"
           echo_downloader echo_download
           [Lit "studies/"; Field "studyid"; Lit "/"] [] "release"
           1 (snd (StudyIdentifier.new 123 4 5 [])) VNone
           (snd (StudyIdentifier.new 123 4 5 [])) 0 (identifier_dict 123 4 5)
           "studies/phs000123/"
           eq_refl eq_refl eq_refl eq_refl eq_refl eq_refl).
Defined.

(** ** Further scenarios *)

Lemma non_string_accession_example :
  exists h',
    biocaddie_json sample_prefix example_raw example_phts
      numeric_accession_store = (Raise TypeError, h').
Proof.
  destruct (non_string_accession_raises sample_prefix example_raw example_phts
              numeric_accession_store (VInt 5) eq_refl
              ltac:(intros a; discriminate))
    as (h' & Hrun & _).
  exists h'. exact Hrun.
Defined.

Lemma non_string_pht_example :
  exists h',
    biocaddie_json sample_prefix example_raw example_phts mixed_phts_store
    = (Raise TypeError, h').
Proof.
  destruct (non_string_pht_raises sample_prefix example_raw mixed_phts_store
              "phs000123.v4.p5" (VStr "Example Study") (VStr "An example.")
              (VRef 12) 13 [VStr "pht000111"; VInt 7] 1 (VInt 7)
              eq_refl eq_refl eq_refl eq_refl eq_refl eq_refl
              ltac:(intros s; discriminate))
    as (h' & Hrun & _).
  exists h'. exact Hrun.
Defined.

(** The object under [GaPExchange] passed as the raw document: it has no
    [GaPExchange] of its own. *)
Lemma missing_study_example :
  biocaddie_json sample_prefix (VRef 3) example_phts example_store
  = (Raise (AttributeError "GaPExchange"), example_store).
Proof.
  exact (missing_study_leaves_store sample_prefix (VRef 3) example_phts
           example_store (AttributeError "GaPExchange") eq_refl).
Defined.

(** With both study names absent the error names the title's, read first. *)
Lemma errors_in_source_order_example :
  exists h',
    biocaddie_json sample_prefix example_raw example_phts unnamed_store
    = (Raise (AttributeError "StudyNameEntrez"), h').
Proof.
  destruct (errors_in_source_order sample_prefix example_raw example_phts
              unnamed_store (VRef 7) "phs000123.v4.p5" "StudyNameEntrez"
              eq_refl eq_refl (or_introl eq_refl))
    as (h' & Hrun & _).
  exists h'. exact Hrun.
Defined.

Lemma study_types_is_shared_example :
  exists out h' h'',
    biocaddie_json sample_prefix example_raw example_phts example_store
    = (Ok out, h') /\
    lookup_attr h' out "study_types" = Ok (VRef 12) /\
    list_append (VRef 12) (VStr "Cohort") h' = (Ok tt, h'') /\
    path_get h'' example_raw study_types_path = Ok (VRef 12) /\
    h'' !! 12 = Some (OList [VStr "Case Set"; VStr "Cohort"]).
Proof.
  destruct (study_types_is_shared sample_prefix example_raw example_phts
              example_store (VRef 15)
              (snd (biocaddie_json sample_prefix example_raw example_phts
                      example_store))
              12 [VStr "Case Set"] (VStr "Cohort")
              ltac:(vm_compute; reflexivity) eq_refl eq_refl)
    as (st & h'' & Hst & Happ & Hpath & Hl).
  assert (st = VRef 12) as -> by (vm_compute in Hst; congruence).
  eexists _, _, h''. split; [vm_compute; reflexivity|]. auto.
Defined.

Lemma output_containers_example :
  exists out h' results h'',
    biocaddie_json sample_prefix example_raw example_phts example_store
    = (Ok out, h') /\
    lookup_attr h' out "resultsIn" = Ok (VRef results) /\
    list_append (VRef results) (VStr "more") h' = (Ok tt, h'') /\
    take (length example_store) h'' = example_store.
Proof.
  destruct (output_containers_are_new sample_prefix example_raw example_phts
              example_store (VRef 15)
              (snd (biocaddie_json sample_prefix example_raw example_phts
                      example_store))
              (VStr "more") ltac:(vm_compute; reflexivity))
    as (entry & info & results & h'' & _ & _ & _ & _ & Hres & _ & Happ & Htake).
  eexists _, _, results, h''. split; [vm_compute; reflexivity|]. auto.
Defined.

Lemma biocaddie_json_returns_example :
  exists out h',
    biocaddie_json sample_prefix example_raw example_phts example_store
    = (Ok out, h').
Proof.
  apply (proj2 (biocaddie_json_returns_iff sample_prefix example_raw
                  example_store 13 [VStr "pht000111"; VStr "pht000112"]
                  eq_refl)).
  exists "phs000123.v4.p5", (VStr "Example Study"), (VStr "An example."),
    (VRef 12), ["pht000111"; "pht000112"].
  repeat split.
Defined.
